(** * FlavourCraft backend: detection merger and recipe synthesizer

    A shallow embedding of the decision logic of the backend,

    - [services/ingredient_service.py]: [merge_detection_results],
    - [services/recipe_service.py]: [generate_ai_recipe] and
      [fallback_rule_based_recipe],
    - [routes/upload.py]: the deduplication, ranking and cap of
      [upload_images],
    - further on, the two detectors and [validate_ingredients] of
      [services/ingredient_service.py], [validate_image_file] of
      [utils/validators.py], the answers of the upload endpoint, and
      [get_user_recipe_history] of [services/recipe_service.py],

    together with the properties the specification states about them.

    Modelling conventions.

    - Python exceptions are the [Raise] branch of a small error monad;
      a [try ... except Exception] block is a [match] on that result.
    - A Python [dict] that is iterated is an association list in
      insertion order; assigning to a key that is present keeps its
      position, as in CPython.
    - Confidence scores are binary64 floats, as in CPython: the kernel's
      primitive floats with their IEEE 754 products, sums and
      comparisons.
    - Strings are byte strings; [lower], [title] and [strip] act on the
      ASCII letters and the ASCII whitespace characters.
    - Module [Unicode] gives the merger, [validate_ingredients] and the
      synthesizer once more for text of any script: a string is the
      UTF-8 encoding of a [str], the methods [lower], [strip] and
      [title] and the model class of a recipe are parameters, and
      lengths and slices count code points.  The statements on the
      normalization of names, on the templates of the fallback, on the
      totality of the synthesizer and on the output of
      [validate_ingredients] are made there. *)

From Stdlib Require Import List String Ascii Bool Arith ZArith Floats.
From Stdlib Require Import Lia Permutation Sorted Morphisms.
Import ListNotations.

Set Warnings "-inexact-float".

Local Open Scope string_scope.
Local Open Scope list_scope.

(* ================================================================= *)
(** ** Python values, exceptions and string methods *)

Module Py.

(** The exceptions the modelled code can meet. *)
Inductive exn : Type :=
| KeyError
| IndexError
| AttributeError
| TypeError
| JSONDecodeError
| ValidationError
| APIError.

Inductive result (A : Type) : Type :=
| Ok (a : A)
| Raise (e : exn).

Arguments Ok {A} a.
Arguments Raise {A} e.

Definition bind {A B : Type} (m : result A) (k : A -> result B) : result B :=
  match m with
  | Ok a => k a
  | Raise e => Raise e
  end.

Notation "x <- m ;; k" := (bind m (fun x => k))
  (at level 61, m at next level, right associativity).

(** [for x in l: s = step s x], stopping at the first exception. *)
Fixpoint for_each {S A : Type} (step : S -> A -> result S)
    (l : list A) (s : S) : result S :=
  match l with
  | [] => Ok s
  | x :: l' => s' <- step s x ;; for_each step l' s'
  end.

(** Values found in a detection record. *)
Inductive pyval : Type :=
| PStr (s : string)
| PNum (x : float)
| PNone.

(** A [dict] with string keys, in insertion order. *)
Definition pydict : Type := list (string * pyval).

(** [d[k]]: [KeyError] when the key is absent. *)
Fixpoint getitem (d : pydict) (k : string) : result pyval :=
  match d with
  | [] => Raise KeyError
  | (k', v) :: d' => if String.eqb k' k then Ok v else getitem d' k
  end.

(** *** Characters *)

Definition is_upper (c : ascii) : bool :=
  let n := nat_of_ascii c in (65 <=? n)%nat && (n <=? 90)%nat.

Definition is_lower (c : ascii) : bool :=
  let n := nat_of_ascii c in (97 <=? n)%nat && (n <=? 122)%nat.

Definition lower_ascii (c : ascii) : ascii :=
  if is_upper c then ascii_of_nat (nat_of_ascii c + 32) else c.

Definition upper_ascii (c : ascii) : ascii :=
  if is_lower c then ascii_of_nat (nat_of_ascii c - 32) else c.

(** [str.isspace] on one ASCII character: tab, line feed, vertical tab,
    form feed, carriage return, the four separators 28..31 and space. *)
Definition is_space (c : ascii) : bool :=
  let n := nat_of_ascii c in
  ((9 <=? n)%nat && (n <=? 13)%nat)
  || ((28 <=? n)%nat && (n <=? 31)%nat)
  || (n =? 32)%nat.

(** *** [str.lower], [str.title], [str.strip], [str.startswith], slices *)

Fixpoint lower (s : string) : string :=
  match s with
  | EmptyString => EmptyString
  | String c s' => String (lower_ascii c) (lower s')
  end.

(** [str.title]: a letter that follows a letter is lowercased, any
    other letter is uppercased; characters that are not letters are
    kept and end the word. *)
Fixpoint title_from (prev_cased : bool) (s : string) : string :=
  match s with
  | EmptyString => EmptyString
  | String c s' =>
      if is_upper c || is_lower c then
        String (if prev_cased then lower_ascii c else upper_ascii c)
               (title_from true s')
      else String c (title_from false s')
  end.

Definition title (s : string) : string := title_from false s.

Fixpoint lstrip (s : string) : string :=
  match s with
  | EmptyString => EmptyString
  | String c s' => if is_space c then lstrip s' else s
  end.

Fixpoint rstrip (s : string) : string :=
  match s with
  | EmptyString => EmptyString
  | String c s' =>
      match rstrip s' with
      | EmptyString => if is_space c then EmptyString else String c EmptyString
      | r => String c r
      end
  end.

Definition strip (s : string) : string := rstrip (lstrip s).

Definition startswith (s p : string) : bool := String.prefix p s.

(** [s[a:-b]] for non-negative literals [a] and [b]. *)
Definition slice (a b : nat) (s : string) : string :=
  String.substring a (String.length s - a - b) s.

(** [sep.join(l)] *)
Definition join (sep : string) (l : list string) : string :=
  String.concat sep l.

(** [x in l] for a list of strings: equality of whole strings. *)
Definition contains (l : list string) (x : string) : bool :=
  existsb (String.eqb x) l.

(** [l[0]]: [IndexError] on the empty list. *)
Definition index0 {A : Type} (l : list A) : result A :=
  match l with
  | [] => Raise IndexError
  | x :: _ => Ok x
  end.

(** [v.lower()]: only a [str] has the method. *)
Definition lower_method (v : pyval) : result string :=
  match v with
  | PStr s => Ok (lower s)
  | _ => Raise AttributeError
  end.

(** [v * w] for a float literal [w]: a number is scaled; a [str] or
    [None] times a float is a [TypeError]. *)
Definition mul_float (v : pyval) (w : float) : result float :=
  match v with
  | PNum x => Ok (x * w)%float
  | _ => Raise TypeError
  end.

(** *** Comparisons on scores *)

(** [a > b] on floats is [b < a]; it is false when either is a NaN. *)
Definition gt (a b : float) : bool := (b <? a)%float.

(** [min(a, b)] of two arguments: [b] only when [b < a]. *)
Definition min2 (a b : float) : float := if (b <? a)%float then b else a.

End Py.

(* ================================================================= *)
(** ** services/ingredient_service.py *)

Module IngredientService.
Import Py.

(** One value of [ingredient_scores], which is also the shape of the
    records of the returned list. *)
Record Score : Type := mkScore {
  name : string;
  confidence : float;
  sources : list string
}.

(** [ingredient_scores]: a [dict] from the normalized name to its
    record, in insertion order. *)
Definition scores : Type := list (string * Score).

(** [k in d] and [d[k]] in one: [None] when the key is absent. *)
Fixpoint lookup {V : Type} (d : list (string * V)) (k : string) : option V :=
  match d with
  | [] => None
  | (k', v) :: d' => if String.eqb k' k then Some v else lookup d' k
  end.

(** [d[k] = v]: a present key keeps its position and takes the new
    value, an absent key is appended. *)
Fixpoint setitem (d : scores) (k : string) (v : Score) : scores :=
  match d with
  | [] => [(k, v)]
  | (k', v') :: d' =>
      if String.eqb k' k then (k', v) :: d' else (k', v') :: setitem d' k v
  end.

(** [d.values()] *)
Definition values (d : scores) : list Score := map snd d.

(** Body of the loop over [local_results] (lines 92-98). *)
Definition local_step (ingredient_scores : scores) (ingredient : pydict)
    : result scores :=
  raw <- getitem ingredient "name" ;;
  name <- lower_method raw ;;
  c <- getitem ingredient "confidence" ;;
  conf <- mul_float c 0.6%float ;;
  Ok (setitem ingredient_scores name
        {| name := name; confidence := conf; sources := ["local_ml"] |}).

(** Body of the loop over [openai_results] (lines 101-115). *)
Definition openai_step (ingredient_scores : scores) (ingredient : pydict)
    : result scores :=
  raw <- getitem ingredient "name" ;;
  name <- lower_method raw ;;
  match lookup ingredient_scores name with
  | Some old =>
      c <- getitem ingredient "confidence" ;;
      r <- mul_float c 0.4%float ;;
      Ok (setitem ingredient_scores name
            {| name := IngredientService.name old;
               confidence := min2 ((confidence old + r) * 1.2)%float 1.0%float;
               sources := sources old ++ ["openai_vision"] |})
  | None =>
      c <- getitem ingredient "confidence" ;;
      conf <- mul_float c 0.4%float ;;
      Ok (setitem ingredient_scores name
            {| name := name; confidence := conf;
               sources := ["openai_vision"] |})
  end.

(** [data["confidence"] > 0.3] *)
Definition above_threshold (data : Score) : bool :=
  gt (confidence data) 0.3%float.

(** [list.sort(key=lambda x: x["confidence"], reverse=True)].  The sort
    is stable, also under [reverse=True]: an element moves in front of
    another one only when its key is strictly greater.  The keys sorted
    here are all above 0.3, so none is a NaN and the comparison [<] is a
    strict weak order on them; the result of a stable sort is then
    determined by the input, and insertion from the right computes it. *)
Fixpoint insert_desc (x : Score) (l : list Score) : list Score :=
  match l with
  | [] => [x]
  | y :: l' =>
      if (confidence x <? confidence y)%float then y :: insert_desc x l'
      else x :: l
  end.

Fixpoint sort_desc (l : list Score) : list Score :=
  match l with
  | [] => []
  | x :: l' => insert_desc x (sort_desc l')
  end.

(** The two loops: the dictionary after line 115. *)
Definition collect (local_results openai_results : list pydict)
    : result scores :=
  after_local <- for_each local_step local_results [] ;;
  for_each openai_step openai_results after_local.

(** The body of the [try] block (lines 89-131). *)
Definition merge_body (local_results openai_results : list pydict)
    : result (list Score) :=
  ingredient_scores <- collect local_results openai_results ;;
  Ok (sort_desc (filter above_threshold (values ingredient_scores))).

(** [merge_detection_results]: any exception of the body is caught and
    the empty list is returned (lines 133-135). *)
Definition merge_detection_results (local_results openai_results : list pydict)
    : list Score :=
  match merge_body local_results openai_results with
  | Ok merged_results => merged_results
  | Raise _ => []
  end.

(** The records the two detectors build (lines 21 and 75). *)
Definition local_entry (n : string) (c : float) : pydict :=
  [("name", PStr n); ("confidence", PNum c); ("source", PStr "local_ml")].

Definition openai_entry (n : string) (c : float) : pydict :=
  [("name", PStr n); ("confidence", PNum c); ("source", PStr "openai_vision")].

End IngredientService.

(* ================================================================= *)
(** ** routes/upload.py: ranking of the detections of one upload *)

Module UploadRoute.
Import Py IngredientService.

(** Lines 59-75: one merge per saved image, concatenated.  The two
    detectors catch their own exceptions and return a list, so an image
    is given by the pair of lists they returned. *)
Definition all_ingredients (detections : list (list pydict * list pydict))
    : list Score :=
  flat_map (fun d => merge_detection_results (fst d) (snd d)) detections.

(** Lines 79-82: keep, per lowercased name, the record of highest
    confidence; a later record replaces an earlier one only when its
    confidence is strictly greater. *)
Definition unique_step (unique_ingredients : scores) (ingredient : Score)
    : scores :=
  let name := lower (IngredientService.name ingredient) in
  match lookup unique_ingredients name with
  | None => setitem unique_ingredients name ingredient
  | Some seen =>
      if gt (confidence ingredient) (confidence seen)
      then setitem unique_ingredients name ingredient
      else unique_ingredients
  end.

Definition unique_ingredients (all : list Score) : scores :=
  fold_left unique_step all [].

(** Lines 84-88: [sorted(..., key=confidence, reverse=True)]. *)
Definition final_ingredients (detections : list (list pydict * list pydict))
    : list Score :=
  sort_desc (values (unique_ingredients (all_ingredients detections))).

(** Line 99: the ["ingredients"] field of the response. *)
Definition upload_images (detections : list (list pydict * list pydict))
    : list Score :=
  firstn 20 (final_ingredients detections).

End UploadRoute.

(* ================================================================= *)
(** ** models/generated_recipe.py and services/recipe_service.py *)

Module RecipeService.
Import Py.

Record GeneratedRecipeRequest : Type := mkRequest {
  ingredients : list string;
  dietary_preferences : option (list string);
  cuisine_type : option string;
  difficulty_preference : option string
}.

Record GeneratedRecipe : Type := mkRecipe {
  title : string;
  steps : list string;
  estimated_time : Z;
  difficulty : string;
  tips : option string;
  servings : Z
}.

(** What [json.loads] returns. *)
#[warnings="-register-all"]
Inductive json : Type :=
| JNull
| JBool (b : bool)
| JInt (z : Z)
| JFloat (x : float)
| JStr (s : string)
| JArr (l : list json)
| JObj (o : list (string * json)).

Fixpoint field (o : list (string * json)) (k : string) : option json :=
  match o with
  | [] => None
  | (k', v) :: o' => if String.eqb k' k then Some v else field o' k
  end.

(** Field validation of the model class: a required [str], a required
    [int], a required [List[str]], [Optional[str] = None] and
    [int = 4].  A field is accepted when its JSON value has the declared
    type and is then taken over unchanged; a missing required field or
    a value of another JSON type is a [ValidationError].  (The
    conversions the validation library offers between types, such as a
    numeric string for an [int], are outside this model.) *)
Definition required_str (o : list (string * json)) (k : string)
    : result string :=
  match field o k with
  | Some (JStr s) => Ok s
  | _ => Raise ValidationError
  end.

Definition required_int (o : list (string * json)) (k : string) : result Z :=
  match field o k with
  | Some (JInt z) => Ok z
  | _ => Raise ValidationError
  end.

Fixpoint str_items (l : list json) : result (list string) :=
  match l with
  | [] => Ok []
  | JStr s :: l' => r <- str_items l' ;; Ok (s :: r)
  | _ :: _ => Raise ValidationError
  end.

Definition required_str_list (o : list (string * json)) (k : string)
    : result (list string) :=
  match field o k with
  | Some (JArr l) => str_items l
  | _ => Raise ValidationError
  end.

Definition optional_str (o : list (string * json)) (k : string)
    : result (option string) :=
  match field o k with
  | None | Some JNull => Ok None
  | Some (JStr s) => Ok (Some s)
  | Some _ => Raise ValidationError
  end.

Definition int_default (o : list (string * json)) (k : string) (d : Z)
    : result Z :=
  match field o k with
  | None => Ok d
  | Some (JInt z) => Ok z
  | Some _ => Raise ValidationError
  end.

(** [GeneratedRecipe( **recipe_data )]: unpacking anything but a JSON
    object is a [TypeError]; the fields are taken over as they are. *)
Definition construct (recipe_data : json) : result GeneratedRecipe :=
  match recipe_data with
  | JObj o =>
      t <- required_str o "title" ;;
      s <- required_str_list o "steps" ;;
      e <- required_int o "estimated_time" ;;
      d <- required_str o "difficulty" ;;
      p <- optional_str o "tips" ;;
      n <- int_default o "servings" 4 ;;
      Ok {| title := t; steps := s; estimated_time := e; difficulty := d;
            tips := p; servings := n |}
  | _ => Raise TypeError
  end.

(** *** The rule-based fallback *)

Definition grains : list string := ["rice"; "pasta"; "noodles"].
Definition proteins : list string :=
  ["chicken"; "beef"; "fish"; "paneer"; "tofu"].

(** Lines 83-88. *)
Definition recipe_type (ingredients : list string) : string :=
  if existsb (fun grain => contains ingredients grain) grains
  then "grain_based"
  else if existsb (fun protein => contains ingredients protein) proteins
  then "protein_based"
  else "vegetable_stir_fry".

Definition grain_based (first : string) (ingredients : list string)
    : GeneratedRecipe :=
  {| title := (Py.title first ++ " Bowl")%string;
     steps := [ ("Prepare all ingredients: " ++ join ", " ingredients)%string;
                "Heat oil in a large pan or wok";
                "Add aromatics (onion, garlic, ginger) if available";
                "Add main ingredients and cook until tender";
                "Season with salt, pepper, and available spices";
                "Serve hot and enjoy!" ];
     estimated_time := 25;
     difficulty := "easy";
     tips := Some "Feel free to adjust seasoning to taste";
     servings := 4 |}.

Definition protein_based (first_title first_step : string) : GeneratedRecipe :=
  {| title := ("Simple " ++ Py.title first_title ++ " Dish")%string;
     steps := [ ("Clean and prepare " ++ first_step)%string;
                "Heat oil in a pan";
                "Cook protein until golden brown";
                "Add vegetables and seasonings";
                "Cook until everything is well combined";
                "Serve with rice or bread" ];
     estimated_time := 30;
     difficulty := "medium";
     tips := Some "Don't overcook the protein";
     servings := 4 |}.

Definition vegetable_stir_fry : GeneratedRecipe :=
  {| title := "Mixed Vegetable Stir Fry";
     steps := [ "Wash and chop all vegetables";
                "Heat oil in a wok or large pan";
                "Add harder vegetables first";
                "Stir fry on high heat";
                "Add softer vegetables";
                "Season and serve hot" ];
     estimated_time := 15;
     difficulty := "easy";
     tips := Some "Keep vegetables crispy for better texture";
     servings := 4 |}.

(** Lines 143-154. *)
Definition absolute_fallback : GeneratedRecipe :=
  {| title := "Simple Ingredient Mix";
     steps := [ "Combine all available ingredients";
                "Cook with basic seasonings";
                "Adjust taste as needed" ];
     estimated_time := 20;
     difficulty := "easy";
     tips := Some "This is a basic combination of your ingredients";
     servings := 4 |}.

(** [recipes.get(k, default)] *)
Fixpoint get_default (recipes : list (string * GeneratedRecipe)) (k : string)
    (default : GeneratedRecipe) : GeneratedRecipe :=
  match recipes with
  | [] => default
  | (k', r) :: recipes' =>
      if String.eqb k' k then r else get_default recipes' k default
  end.

(** The body of the [try] block of [fallback_rule_based_recipe] (lines
    80-138).  The dictionary literal builds the three templates before
    one is chosen; each [ingredients[0]] in it is an [IndexError] on an
    empty list. *)
Definition fallback_body (request : GeneratedRecipeRequest)
    : result GeneratedRecipe :=
  let ingredients := ingredients request in
  let recipe_type := recipe_type ingredients in
  g <- index0 ingredients ;;
  p <- index0 ingredients ;;
  q <- index0 ingredients ;;
  let recipes :=
    [ ("grain_based", grain_based g ingredients);
      ("protein_based", protein_based p q);
      ("vegetable_stir_fry", vegetable_stir_fry) ] in
  Ok (get_default recipes recipe_type vegetable_stir_fry).

(** [fallback_rule_based_recipe] (lines 77-154). *)
Definition fallback_rule_based_recipe (request : GeneratedRecipeRequest)
    : GeneratedRecipe :=
  match fallback_body request with
  | Ok recipe => recipe
  | Raise _ => absolute_fallback
  end.

(** *** The generative attempt *)

Section Generative.

(** [json.loads], a function of the standard library: the text to the
    value it denotes, or [JSONDecodeError]. *)
Variable json_loads : string -> result json.

(** Lines 54-60: [strip] and removal of a Markdown code fence. *)
Definition clean_response (content : string) : string :=
  let recipe_text := strip content in
  if startswith recipe_text "```json" then slice 7 3 recipe_text
  else if startswith recipe_text "```" then slice 3 3 recipe_text
  else recipe_text.

(** The body of the [try] block of [generate_ai_recipe] (lines 19-68).
    [response] is the outcome of the call to the generative service for
    the prompt of lines 22-41: the text of the first choice, or the
    exception raised on the way to it. *)
Definition generative_attempt (response : result string)
    : result GeneratedRecipe :=
  content <- response ;;
  recipe_data <- json_loads (clean_response content) ;;
  construct recipe_data.

(** [generate_ai_recipe] (lines 13-75): both [except] clauses return
    the rule-based fallback. *)
Definition generate_ai_recipe (response : result string)
    (request : GeneratedRecipeRequest) : GeneratedRecipe :=
  match generative_attempt response with
  | Ok generated_recipe => generated_recipe
  | Raise JSONDecodeError => fallback_rule_based_recipe request
  | Raise _ => fallback_rule_based_recipe request
  end.

End Generative.

(** *** The invariants of a recipe (data model) *)

Definition nonempty (s : string) : bool :=
  match s with
  | EmptyString => false
  | String _ _ => true
  end.

Definition valid_difficulty (d : string) : bool :=
  String.eqb d "easy" || String.eqb d "medium" || String.eqb d "hard".

Definition valid_recipe (r : GeneratedRecipe) : bool :=
  nonempty (title r)
  && negb (Nat.eqb (List.length (steps r)) 0)
  && forallb nonempty (steps r)
  && (0 <? estimated_time r)%Z
  && (0 <? servings r)%Z
  && valid_difficulty (difficulty r).

End RecipeService.

(* ================================================================= *)
(** ** More of Python: [split], the last item, floor division *)

Module PyExtra.
Import Py.

(** [s.split(sep)] for a separator of one character: the pieces between
    the separators, at least one piece. *)
Fixpoint split (sep : ascii) (s : string) : list string :=
  match s with
  | EmptyString => [EmptyString]
  | String c s' =>
      if Ascii.eqb c sep then EmptyString :: split sep s'
      else match split sep s' with
           | [] => [String c EmptyString]
           | piece :: pieces => String c piece :: pieces
           end
  end.

(** [l[-1]]: [IndexError] on the empty list. *)
Fixpoint last_item {A : Type} (l : list A) : result A :=
  match l with
  | [] => Raise IndexError
  | [x] => Ok x
  | _ :: l' => last_item l'
  end.

(** The truth value of a [str]: false for the empty string only. *)
Definition truthy (s : string) : bool :=
  match s with
  | EmptyString => false
  | String _ _ => true
  end.

(** [a // b] on integers: the floor of the quotient; [None] stands for
    the [ZeroDivisionError] of a zero divisor. *)
Definition floordiv (a b : Z) : option Z :=
  if (b =? 0)%Z then None else Some (a / b)%Z.

End PyExtra.

(* ================================================================= *)
(** ** services/ingredient_service.py: the detectors, [validate_ingredients] *)

Module Detectors.
Import Py PyExtra IngredientService.

(** Lines 20-24. *)
Definition mock_ingredients : list pydict :=
  [ local_entry "tomato" 0.92%float;
    local_entry "onion" 0.87%float;
    local_entry "garlic" 0.75%float ].

(** [detect_local_ingredients] (lines 13-34): the mock data, whatever
    the image. *)
Definition detect_local_ingredients (image_path : string) : list pydict :=
  mock_ingredients.

(** [detect_openai_ingredients] (lines 36-84).  [response] is the
    outcome of lines 39-70, reading the image and asking the vision
    service: the text of the first choice or the exception raised on
    the way.  Any exception gives the empty list. *)
Definition detect_openai_ingredients (response : result string)
    : list pydict :=
  match response with
  | Raise _ => []
  | Ok content =>
      let ingredients_text := strip content in
      let ingredient_names :=
        map (fun name => lower (strip name))
            (split ","%char ingredients_text) in
      map (fun name => openai_entry name 0.85%float)
          (filter truthy ingredient_names)
  end.

(** Line 148. *)
Definition non_food_items : list string :=
  ["plate"; "bowl"; "table"; "hand"; "person"; "kitchen"; "utensil"].

(** The body of the loop of [validate_ingredients] (lines 143-151). *)
Definition validate_step (valid_ingredients : list string)
    (ingredient : string) : list string :=
  let cleaned := lower (strip ingredient) in
  if truthy cleaned
     && (2 <? String.length cleaned)%nat
     && negb (contains non_food_items cleaned)
  then valid_ingredients ++ [cleaned]
  else valid_ingredients.

(** [validate_ingredients] (lines 137-157).  On a list of [str] no
    statement of the body raises, so the [except] branch is not
    reached. *)
Definition validate_ingredients (ingredients : list string) : list string :=
  fold_left validate_step ingredients [].

End Detectors.

(* ================================================================= *)
(** ** utils/validators.py: [validate_image_file]; config.py *)

Module Validators.
Import Py PyExtra.

(** config.py, lines 19-20. *)
Definition MAX_UPLOAD_SIZE : Z := 10485760.
Definition ALLOWED_EXTENSIONS : list string := ["jpg"; "jpeg"; "png"; "webp"].

(** What the code reads of an uploaded file: its name, the size that
    [seek] and [tell] report (or the exception they raise) and the
    declared content type. *)
Record UploadFile : Type := mkUploadFile {
  filename : option string;
  size : result Z;
  content_type : option string
}.

Definition allowed_content_types : list string :=
  ["image/jpeg"; "image/jpg"; "image/png"; "image/webp"].

(** [file.filename.split('.')[-1].lower()] *)
Definition file_extension (name : string) : result string :=
  piece <- last_item (split "."%char name) ;;
  Ok (lower piece).

(** The body of the [try] block of [validate_image_file] (lines 21-48). *)
Definition validate_image_file_body (file : UploadFile) : result bool :=
  match filename file with
  | None => Ok false
  | Some name =>
      if negb (truthy name) then Ok false
      else
        extension <- file_extension name ;;
        if negb (contains ALLOWED_EXTENSIONS extension) then Ok false
        else
          file_size <- size file ;;
          if (MAX_UPLOAD_SIZE <? file_size)%Z then Ok false
          else
            match content_type file with
            | None => Ok false
            | Some t =>
                if negb (contains allowed_content_types t) then Ok false
                else Ok true
            end
  end.

(** [validate_image_file] (lines 18-51): an exception means [False]. *)
Definition validate_image_file (file : UploadFile) : bool :=
  match validate_image_file_body file with
  | Ok b => b
  | Raise _ => false
  end.

End Validators.

(* ================================================================= *)
(** ** routes/upload.py: the endpoint *)

Module UploadEndpoint.
Import Py PyExtra IngredientService UploadRoute Detectors Validators.

(** One uploaded file with what happens to it: whether writing it to
    the temporary directory succeeds, and the outcome of the vision
    call on the saved file. *)
Record Upload : Type := mkUpload {
  file : UploadFile;
  written : result unit;
  vision : result string
}.

Inductive response : Type :=
| Success (ingredients : list Score)
| BadRequest (detail : string)
| ServerError (detail : string).

(** [f"Invalid file: {file.filename}"] *)
Definition invalid_detail (f : UploadFile) : string :=
  ("Invalid file: " ++ match filename f with
                       | Some name => name
                       | None => "None"
                       end)%string.

(** Lines 39-56: validate and save, file by file; the first invalid
    file ends the request with 400, a failing write is an exception. *)
Fixpoint save_files (files : list Upload) : result (option string) :=
  match files with
  | [] => Ok None
  | u :: files' =>
      if negb (validate_image_file (file u))
      then Ok (Some (invalid_detail (file u)))
      else _ <- written u ;; save_files files'
  end.

(** Lines 61-75: both detectors and the merge, per saved file.  The
    path of the saved file plays no role in the local detector, and the
    remote detector is given by the outcome of its call. *)
Definition detections (files : list Upload)
    : list (list pydict * list pydict) :=
  map (fun u => (detect_local_ingredients EmptyString,
                 detect_openai_ingredients (vision u))) files.

(** [upload_images] (lines 21-109) as a function of the uploaded files:
    the status and, on success, the ["ingredients"] of the response.
    An [HTTPException] passes the handler, any other exception is
    answered with 500. *)
Definition upload_endpoint (files : list Upload) : response :=
  if (5 <? List.length files)%nat
  then BadRequest "Maximum 5 images allowed"
  else
    match save_files files with
    | Ok (Some detail) => BadRequest detail
    | Ok None => Success (upload_images (detections files))
    | Raise _ => ServerError "Image processing failed"
    end.

End UploadEndpoint.

(* ================================================================= *)
(** ** services/recipe_service.py: [get_user_recipe_history] *)

Module RecipeHistory.
Import Py PyExtra.

Section History.

(** A [GeneratedRecipeResponse]; its fields play no role here. *)
Variable Response : Type.

Record RecipeHistoryResponse : Type := mkHistory {
  recipes : list Response;
  total_count : Z;
  page : Z;
  per_page : Z
}.

(** [get_user_recipe_history] (lines 196-224).  [fetched] is the outcome
    of the database part (lines 204-213): the page of responses and the
    total count, or an exception.  The page number is
    [skip // limit + 1]; any exception, the division by a zero [limit]
    included, gives the empty first page. *)
Definition get_user_recipe_history (fetched : result (list Response * Z))
    (limit skip : Z) : RecipeHistoryResponse :=
  let failed := mkHistory [] 0 1 limit in
  match fetched with
  | Raise _ => failed
  | Ok (recipe_responses, count) =>
      match floordiv skip limit with
      | None => failed
      | Some q => mkHistory recipe_responses count (q + 1) limit
      end
  end.

End History.

Arguments mkHistory {Response}.
Arguments recipes {Response}.
Arguments total_count {Response}.
Arguments page {Response}.
Arguments per_page {Response}.
Arguments get_user_recipe_history {Response}.

End RecipeHistory.


(* ================================================================= *)
(** ** Vocabulary of the statements *)

Module Vocabulary.
Import Py IngredientService RecipeService.

Definition not_nan (x : float) : Prop := Prim2SF x <> S754_nan.

(** [ge a b]: [a] may stand in front of [b] in a list that is sorted by
    confidence, highest first. *)
Definition ge (a b : Score) : Prop :=
  (confidence b <=? confidence a)%float = true.

Definition comparable (a : Score) : Prop := not_nan (confidence a).

(** *** Detection records

    [read e] is the normalized name and the confidence of a record that
    has both, a [str] and a number; [readings l] reads a whole list. *)
Definition read (e : pydict) : option (string * float) :=
  match getitem e "name" with
  | Ok (PStr s) =>
      match getitem e "confidence" with
      | Ok (PNum c) => Some (lower s, c)
      | _ => None
      end
  | _ => None
  end.

Fixpoint readings (l : list pydict) : option (list (string * float)) :=
  match l with
  | [] => Some []
  | e :: l' =>
      match read e, readings l' with
      | Some p, Some ps => Some (p :: ps)
      | _, _ => None
      end
  end.

(** A record without a name or without a confidence. *)
Definition malformed (e : pydict) : Prop :=
  getitem e "name" = Raise KeyError
  \/ getitem e "confidence" = Raise KeyError.

(** The two loop bodies on a record that was read. *)
Definition put_local (d : scores) (p : string * float) : scores :=
  setitem d (fst p)
    (mkScore (fst p) (snd p * 0.6)%float ["local_ml"]).

Definition put_openai (d : scores) (p : string * float) : scores :=
  match lookup d (fst p) with
  | Some old =>
      setitem d (fst p)
        (mkScore (name old)
           (min2 ((confidence old + snd p * 0.4) * 1.2)%float 1.0%float)
           (sources old ++ ["openai_vision"]))
  | None =>
      setitem d (fst p)
        (mkScore (fst p) (snd p * 0.4)%float ["openai_vision"])
  end.

Definition dict_of (pl pr : list (string * float)) : scores :=
  fold_left put_openai pr (fold_left put_local pl []).

(** What the remote loop body makes of the record found under a name. *)
Definition boosted (k : string) (old : option Score) (r : float) : Score :=
  match old with
  | Some o =>
      mkScore (name o)
        (min2 ((confidence o + r * 0.4) * 1.2)%float 1.0%float)
        (sources o ++ ["openai_vision"])
  | None => mkScore k (r * 0.4)%float ["openai_vision"]
  end.

(** Every record is stored under its own name. *)
Definition well_keyed (d : scores) : Prop :=
  forall k v, In (k, v) d -> name v = k.

(** *** The weighting rule

    [weighted pl pr m]: the record [m] is what the rule gives for its
    name, from the local readings [pl] and the remote readings [pr]. *)
Definition weighted (pl pr : list (string * float)) (m : Score) : Prop :=
  (exists l,
      In (name m, l) pl /\ ~ In (name m) (map fst pr)
      /\ confidence m = (l * 0.6)%float
      /\ sources m = ["local_ml"])
  \/ (exists r,
        In (name m, r) pr /\ ~ In (name m) (map fst pl)
        /\ confidence m = (r * 0.4)%float
        /\ sources m = ["openai_vision"])
  \/ (exists l r,
        In (name m, l) pl /\ In (name m, r) pr
        /\ confidence m
           = min2 ((l * 0.6 + r * 0.4) * 1.2)%float 1.0%float
        /\ sources m = ["local_ml"; "openai_vision"]).

(** *** Order of first encounter *)

(** [see seen n]: the names seen so far, after [n] is met. *)
Definition see (seen : list string) (n : string) : list string :=
  if contains seen n then seen else seen ++ [n].

(** The normalized names of the records of a list, in order. *)
Definition names (l : list pydict) : list string :=
  flat_map (fun e => match read e with
                     | Some p => [fst p]
                     | None => []
                     end) l.

(** The names of both inputs in the order they are first met: the local
    list first, then the remote one. *)
Definition first_seen (local_results openai_results : list pydict)
    : list string :=
  fold_left see (names local_results ++ names openai_results) [].

(** [a] stands at an earlier position of [l] than [b]. *)
Definition precedes {A : Type} (l : list A) (a b : A) : Prop :=
  exists i j, (i < j)%nat /\ nth_error l i = Some a /\ nth_error l j = Some b.

(** The same, by recursion on the list. *)
Fixpoint before {A : Type} (a b : A) (l : list A) : Prop :=
  match l with
  | [] => False
  | x :: l' => (x = a /\ In b l') \/ before a b l'
  end.

(** *** Requests and replies of the generative service *)

(** The request for a list of ingredients, with no preference. *)
Definition request_for (l : list string) : GeneratedRecipeRequest :=
  mkRequest l (Some []) None None.

(** A double quote, for JSON texts. *)
Definition dq : string := String (ascii_of_nat 34) EmptyString.

Definition quoted (s : string) : string := (dq ++ s ++ dq)%string.

(** A reply of the generative service that is well-formed JSON of the
    requested shape, and the value [json.loads] gives for it:
    an empty title, no steps, zero minutes, an unknown difficulty and
    zero servings. *)
Definition degenerate_reply : string :=
  ("{" ++ quoted "title" ++ ": " ++ quoted EmptyString ++ ", "
       ++ quoted "steps" ++ ": [], "
       ++ quoted "estimated_time" ++ ": 0, "
       ++ quoted "difficulty" ++ ": " ++ quoted "expert" ++ ", "
       ++ quoted "servings" ++ ": 0}")%string.

Definition degenerate_json : json :=
  JObj [ ("title", JStr EmptyString);
         ("steps", JArr []);
         ("estimated_time", JInt 0);
         ("difficulty", JStr "expert");
         ("servings", JInt 0) ].

(** [json.loads] on that one text; any other text is not needed. *)
Definition loads_degenerate (text : string) : result json :=
  if String.eqb text degenerate_reply then Ok degenerate_json
  else Raise JSONDecodeError.

(** A [json.loads] that rejects every text. *)
Definition loads_nothing (text : string) : result json :=
  Raise JSONDecodeError.

End Vocabulary.

(* ================================================================= *)
(** ** Vocabulary of the further statements *)

Module FurtherVocabulary.
Import Py PyExtra IngredientService RecipeService Detectors.
Import Validators UploadEndpoint Vocabulary.

(** The names [detect_openai_ingredients] keeps. *)
Definition kept_names (response : result string) : list string :=
  match response with
  | Raise _ => []
  | Ok content =>
      filter truthy
        (map (fun name => lower (strip name))
             (split ","%char (strip content)))
  end.

(** *** The confidences the repository's detectors can produce *)

(** What the agreement branch makes of a stored confidence when the
    remote record has the confidence 0.85 of the vision detector. *)
Definition boost (c : float) : float :=
  min2 ((c + 0.85 * 0.4) * 1.2)%float 1.0%float.

(** The weighted confidences of the three mock records and of a remote
    record, closed under [boost]. *)
Definition reachable : list float :=
  [ (0.92 * 0.6)%float; (0.87 * 0.6)%float; (0.75 * 0.6)%float;
    (0.85 * 0.4)%float; 1.0%float;
    boost (0.75 * 0.6)%float; boost (0.85 * 0.4)%float ].

(** *** Recipes as JSON objects *)

(** The object with the six fields of a recipe. *)
Definition encode (r : GeneratedRecipe) : json :=
  JObj [ ("title", JStr (title r));
         ("steps", JArr (map JStr (steps r)));
         ("estimated_time", JInt (estimated_time r));
         ("difficulty", JStr (difficulty r));
         ("tips", match tips r with
                  | Some t => JStr t
                  | None => JNull
                  end);
         ("servings", JInt (servings r)) ].

(** [c] does not occur in [s]. *)
Fixpoint free_of (c : ascii) (s : string) : Prop :=
  match s with
  | EmptyString => True
  | String a s' => a <> c /\ free_of c s'
  end.

(** *** Invariants and tests used in the proofs *)

(** A stored record has one source, or its confidence went through the
    cap. *)
Definition single_or_capped (v : Score) : Prop :=
  sources v = ["local_ml"] \/ sources v = ["openai_vision"]
  \/ (1.0 <? confidence v)%float = false.

(** [best d x]: the dictionary holds, under the name of [x], a record
    at least as confident as [x]. *)
Definition best (d : scores) (x : Score) : Prop :=
  exists v, lookup d (name x) = Some v /\ ge v x.

(** A file passes the first loop: it is valid and is written. *)
Definition accepted (u : Upload) : Prop :=
  validate_image_file (file u) = true /\ written u = Ok tt.

(** The test of line 150 on a cleaned name. *)
Definition kept (cleaned : string) : bool :=
  truthy cleaned
  && (2 <? String.length cleaned)%nat
  && negb (contains non_food_items cleaned).

Definition keep (ingredient : string) : list string :=
  if kept (lower (strip ingredient)) then [lower (strip ingredient)] else [].

End FurtherVocabulary.

(* ================================================================= *)
(** ** Text beyond ASCII: the string methods of the library as parameters

    A Python [str] is a sequence of code points, and a [string] of this
    development holds its UTF-8 encoding: equality, concatenation and
    the test of a prefix are the same on both.  What [str.lower],
    [str.title] and [str.strip] make of a text is decided by the
    character database of the interpreter.  In this module the three
    methods are the fields of a [strlib], and the functions that call
    them are given once more over an arbitrary [strlib], line by line
    as above; [ascii_methods] is the instance that the modules above
    use.  The length of a text and the bounds of a slice count code
    points.  The model class of a recipe is a parameter as well: what
    [GeneratedRecipe( **recipe_data )] accepts, and what it converts on
    the way, is decided by the validation library. *)

Module Unicode.
Import Py PyExtra IngredientService RecipeService Detectors.

Record strlib : Type := mkStrlib {
  str_lower : string -> string;
  str_strip : string -> string;
  str_title : string -> string
}.

(** The methods restricted to ASCII letters and ASCII whitespace. *)
Definition ascii_methods : strlib := mkStrlib Py.lower Py.strip Py.title.

(** *** Code points *)

(** A byte [10xxxxxx] continues the code point that the bytes before it
    began. *)
Definition is_continuation (c : ascii) : bool :=
  match c with
  | Ascii _ _ _ _ _ _ b6 b7 => b7 && negb b6
  end.

(** The text goes on with the code point begun before it. *)
Definition continues (s : string) : bool :=
  match s with
  | EmptyString => false
  | String d _ => is_continuation d
  end.

(** The code points of a text, each as its bytes. *)
Fixpoint chars (s : string) : list string :=
  match s with
  | EmptyString => []
  | String c s' =>
      match continues s', chars s' with
      | true, g :: gs => String c g :: gs
      | _, gs => String c EmptyString :: gs
      end
  end.

(** [len(s)] *)
Definition len (s : string) : nat := List.length (chars s).

(** [s[a:-b]] for positive literals [a] and [b]: the code points from
    position [a] up to the last [b]; nothing when fewer than [a + b]
    are there. *)
Definition slice (a b : nat) (s : string) : string :=
  let cs := chars s in
  String.concat EmptyString (firstn (List.length cs - a - b) (skipn a cs)).

(** [blank w]: [w] is made of ASCII whitespace characters. *)
Fixpoint blank (w : string) : bool :=
  match w with
  | EmptyString => true
  | String c w' => is_space c && blank w'
  end.

Section Methods.

Variable lib : strlib.

(** *** services/ingredient_service.py: [merge_detection_results] *)

(** [v.lower()]: only a [str] has the method. *)
Definition lower_method (v : pyval) : result string :=
  match v with
  | PStr s => Ok (str_lower lib s)
  | _ => Raise AttributeError
  end.

(** Body of the loop over [local_results] (lines 92-98). *)
Definition local_step (ingredient_scores : scores) (ingredient : pydict)
    : result scores :=
  raw <- getitem ingredient "name" ;;
  name <- lower_method raw ;;
  c <- getitem ingredient "confidence" ;;
  conf <- mul_float c 0.6%float ;;
  Ok (setitem ingredient_scores name
        {| name := name; confidence := conf; sources := ["local_ml"] |}).

(** Body of the loop over [openai_results] (lines 101-115). *)
Definition openai_step (ingredient_scores : scores) (ingredient : pydict)
    : result scores :=
  raw <- getitem ingredient "name" ;;
  name <- lower_method raw ;;
  match lookup ingredient_scores name with
  | Some old =>
      c <- getitem ingredient "confidence" ;;
      r <- mul_float c 0.4%float ;;
      Ok (setitem ingredient_scores name
            {| name := IngredientService.name old;
               confidence := min2 ((confidence old + r) * 1.2)%float 1.0%float;
               sources := sources old ++ ["openai_vision"] |})
  | None =>
      c <- getitem ingredient "confidence" ;;
      conf <- mul_float c 0.4%float ;;
      Ok (setitem ingredient_scores name
            {| name := name; confidence := conf;
               sources := ["openai_vision"] |})
  end.

(** The two loops: the dictionary after line 115. *)
Definition collect (local_results openai_results : list pydict)
    : result scores :=
  after_local <- for_each local_step local_results [] ;;
  for_each openai_step openai_results after_local.

(** The body of the [try] block (lines 89-131). *)
Definition merge_body (local_results openai_results : list pydict)
    : result (list Score) :=
  ingredient_scores <- collect local_results openai_results ;;
  Ok (sort_desc (filter above_threshold (values ingredient_scores))).

(** [merge_detection_results] (lines 86-135). *)
Definition merge_detection_results (local_results openai_results : list pydict)
    : list Score :=
  match merge_body local_results openai_results with
  | Ok merged_results => merged_results
  | Raise _ => []
  end.

(** The normalized name and the confidence of a record that has both,
    a [str] and a number; a whole list of such records. *)
Definition read (e : pydict) : option (string * float) :=
  match getitem e "name" with
  | Ok (PStr s) =>
      match getitem e "confidence" with
      | Ok (PNum c) => Some (str_lower lib s, c)
      | _ => None
      end
  | _ => None
  end.

Fixpoint readings (l : list pydict) : option (list (string * float)) :=
  match l with
  | [] => Some []
  | e :: l' =>
      match read e, readings l' with
      | Some p, Some ps => Some (p :: ps)
      | _, _ => None
      end
  end.

(** *** services/ingredient_service.py: [validate_ingredients] *)

(** The test of line 150 on a cleaned name. *)
Definition kept (cleaned : string) : bool :=
  truthy cleaned
  && (2 <? len cleaned)%nat
  && negb (contains non_food_items cleaned).

(** The body of the loop of [validate_ingredients] (lines 143-151). *)
Definition validate_step (valid_ingredients : list string)
    (ingredient : string) : list string :=
  let cleaned := str_lower lib (str_strip lib ingredient) in
  if truthy cleaned
     && (2 <? len cleaned)%nat
     && negb (contains non_food_items cleaned)
  then valid_ingredients ++ [cleaned]
  else valid_ingredients.

(** [validate_ingredients] (lines 137-157). *)
Definition validate_ingredients (ingredients : list string) : list string :=
  fold_left validate_step ingredients [].

(** What one input contributes to the result. *)
Definition keep (ingredient : string) : list string :=
  let cleaned := str_lower lib (str_strip lib ingredient) in
  if kept cleaned then [cleaned] else [].

(** *** services/recipe_service.py: the rule-based fallback *)

Definition grain_based (first : string) (ingredients : list string)
    : GeneratedRecipe :=
  {| title := (str_title lib first ++ " Bowl")%string;
     steps := [ ("Prepare all ingredients: " ++ join ", " ingredients)%string;
                "Heat oil in a large pan or wok";
                "Add aromatics (onion, garlic, ginger) if available";
                "Add main ingredients and cook until tender";
                "Season with salt, pepper, and available spices";
                "Serve hot and enjoy!" ];
     estimated_time := 25;
     difficulty := "easy";
     tips := Some "Feel free to adjust seasoning to taste";
     servings := 4 |}.

Definition protein_based (first_title first_step : string) : GeneratedRecipe :=
  {| title := ("Simple " ++ str_title lib first_title ++ " Dish")%string;
     steps := [ ("Clean and prepare " ++ first_step)%string;
                "Heat oil in a pan";
                "Cook protein until golden brown";
                "Add vegetables and seasonings";
                "Cook until everything is well combined";
                "Serve with rice or bread" ];
     estimated_time := 30;
     difficulty := "medium";
     tips := Some "Don't overcook the protein";
     servings := 4 |}.

(** The body of the [try] block of [fallback_rule_based_recipe] (lines
    80-138). *)
Definition fallback_body (request : GeneratedRecipeRequest)
    : result GeneratedRecipe :=
  let ingredients := ingredients request in
  let recipe_type := recipe_type ingredients in
  g <- index0 ingredients ;;
  p <- index0 ingredients ;;
  q <- index0 ingredients ;;
  let recipes :=
    [ ("grain_based", grain_based g ingredients);
      ("protein_based", protein_based p q);
      ("vegetable_stir_fry", vegetable_stir_fry) ] in
  Ok (get_default recipes recipe_type vegetable_stir_fry).

(** [fallback_rule_based_recipe] (lines 77-154). *)
Definition fallback_rule_based_recipe (request : GeneratedRecipeRequest)
    : GeneratedRecipe :=
  match fallback_body request with
  | Ok recipe => recipe
  | Raise _ => absolute_fallback
  end.

(** *** services/recipe_service.py: [generate_ai_recipe] *)

(** [json.loads], and the construction [GeneratedRecipe( **recipe_data )]
    of the model class: the recipe it builds from the value, or the
    exception it raises (a [TypeError] for a value that cannot be
    unpacked, a [ValidationError] for fields it does not accept). *)
Variable json_loads : string -> result json.
Variable model_class : json -> result GeneratedRecipe.

(** Lines 54-60: [strip] and removal of a Markdown code fence. *)
Definition clean_response (content : string) : string :=
  let recipe_text := str_strip lib content in
  if startswith recipe_text "```json" then slice 7 3 recipe_text
  else if startswith recipe_text "```" then slice 3 3 recipe_text
  else recipe_text.

(** The body of the [try] block (lines 19-68).  [response] is the
    outcome of lines 19-54 up to [strip]: the text of the first choice
    of the generative service, or the exception raised on the way to
    it. *)
Definition generative_attempt (response : result string)
    : result GeneratedRecipe :=
  content <- response ;;
  recipe_data <- json_loads (clean_response content) ;;
  model_class recipe_data.

(** [generate_ai_recipe] (lines 13-75). *)
Definition generate_ai_recipe (response : result string)
    (request : GeneratedRecipeRequest) : GeneratedRecipe :=
  match generative_attempt response with
  | Ok generated_recipe => generated_recipe
  | Raise JSONDecodeError => fallback_rule_based_recipe request
  | Raise _ => fallback_rule_based_recipe request
  end.

End Methods.

End Unicode.


(* ================================================================= *)
(** * Properties *)

(** ** The order of binary64 floats

    The comparisons of primitive floats are specified through
    [SFcompare]; away from NaN it is a total preorder. *)

Module FloatOrder.
Import Vocabulary.

Lemma SFcompare_antisym (x y : spec_float) :
  SFcompare y x = option_map CompOpp (SFcompare x y).
Proof.
  destruct x as [sx|sx| |sx mx ex], y as [sy|sy| |sy my ey]; simpl;
    try destruct sx; try destruct sy; simpl; try reflexivity.
  - rewrite (Z.compare_antisym ex ey).
    destruct (ex ?= ey)%Z; simpl; try reflexivity.
    now rewrite (Pos.compare_cont_antisym mx my Eq).
  - rewrite (Z.compare_antisym ex ey).
    destruct (ex ?= ey)%Z; simpl; try reflexivity.
    pose proof (Pos.compare_cont_antisym mx my Eq) as H. simpl in H.
    now rewrite <- H.
Qed.

Lemma SFcompare_some (x y : spec_float) :
  x <> S754_nan -> y <> S754_nan -> exists c, SFcompare x y = Some c.
Proof.
  destruct x, y; simpl; intros; try congruence; eauto.
Qed.

Lemma SFcompare_nan (x y : spec_float) c :
  SFcompare x y = Some c -> x <> S754_nan /\ y <> S754_nan.
Proof.
  destruct x, y; simpl; intros; split; congruence.
Qed.

Lemma SFleb_trans (x y z : spec_float) :
  SFleb x y = true -> SFleb y z = true -> SFleb x z = true.
Proof.
  unfold SFleb.
  destruct x as [sx|sx| |sx mx ex], y as [sy|sy| |sy my ey],
           z as [sz|sz| |sz mz ez]; simpl;
    try destruct sx; try destruct sy; try destruct sz; simpl;
    try congruence; try reflexivity.
  - destruct (Z.compare_spec ex ey), (Z.compare_spec ey ez),
      (Z.compare_spec ex ez); simpl; try congruence; try lia; subst.
    change (Pos.compare_cont Eq) with Pos.compare.
    destruct (Pos.compare_spec mx my), (Pos.compare_spec my mz),
      (Pos.compare_spec mx mz); simpl; try congruence; try lia.
  - destruct (Z.compare_spec ex ey), (Z.compare_spec ey ez),
      (Z.compare_spec ex ez); simpl; try congruence; try lia; subst.
    change (Pos.compare_cont Eq) with Pos.compare.
    destruct (Pos.compare_spec mx my), (Pos.compare_spec my mz),
      (Pos.compare_spec mx mz); simpl; try congruence; try lia.
Qed.

Lemma ltb_not_nan (x y : float) :
  (x <? y)%float = true -> not_nan x /\ not_nan y.
Proof.
  rewrite ltb_spec. unfold SFltb, not_nan.
  destruct (SFcompare (Prim2SF x) (Prim2SF y)) as [c|] eqn:E; [|discriminate].
  intros _. exact (SFcompare_nan _ _ _ E).
Qed.

Lemma ltb_leb (x y : float) :
  (x <? y)%float = true -> (x <=? y)%float = true.
Proof.
  rewrite ltb_spec, leb_spec. unfold SFltb, SFleb.
  destruct (SFcompare _ _) as [[]|]; congruence.
Qed.

Lemma not_ltb_leb (x y : float) :
  not_nan x -> not_nan y ->
  (x <? y)%float = false -> (y <=? x)%float = true.
Proof.
  unfold not_nan. intros Hx Hy.
  rewrite ltb_spec, leb_spec. unfold SFltb, SFleb.
  rewrite (SFcompare_antisym (Prim2SF x) (Prim2SF y)).
  destruct (SFcompare_some _ _ Hx Hy) as [c ->].
  destruct c; simpl; congruence.
Qed.

Lemma leb_trans (x y z : float) :
  (x <=? y)%float = true -> (y <=? z)%float = true -> (x <=? z)%float = true.
Proof. rewrite !leb_spec. apply SFleb_trans. Qed.

Lemma ltb_not_eqb (x y : float) :
  (x <? y)%float = true -> (y =? x)%float = false.
Proof.
  rewrite ltb_spec, eqb_spec. unfold SFltb, SFeqb.
  rewrite (SFcompare_antisym (Prim2SF x) (Prim2SF y)).
  destruct (SFcompare _ _) as [[]|]; simpl; congruence.
Qed.

End FloatOrder.

Import Py IngredientService UploadRoute RecipeService Vocabulary.

(* ================================================================= *)
(** ** String methods on sample inputs *)

Example lower_sample : lower "ToMaTo 1" = "tomato 1".
Proof. reflexivity. Qed.

Example title_sample : Py.title "fRIED rice-cake 2go" = "Fried Rice-Cake 2Go".
Proof. reflexivity. Qed.

Example strip_sample : strip "  a b  " = "a b".
Proof. reflexivity. Qed.

Example clean_response_fenced :
  clean_response (String.append "```json{}```" " ") = "{}"
  /\ clean_response "```[1]```" = "[1]"
  /\ clean_response " {} " = "{}"
  /\ clean_response "```json" = EmptyString.
Proof. repeat split. Qed.


(* ================================================================= *)
(** ** The stable descending sort *)

Section Sorting.

Lemma insert_desc_perm (x : Score) (l : list Score) :
  Permutation (x :: l) (insert_desc x l).
Proof.
  induction l as [|y l IH]; simpl; [reflexivity|].
  destruct (confidence x <? confidence y)%float; [|reflexivity].
  rewrite perm_swap. now apply perm_skip.
Qed.

Lemma sort_desc_perm (l : list Score) : Permutation l (sort_desc l).
Proof.
  induction l as [|x l IH]; simpl; [reflexivity|].
  rewrite <- insert_desc_perm. now apply perm_skip.
Qed.

Lemma sort_desc_In (l : list Score) (m : Score) :
  In m (sort_desc l) <-> In m l.
Proof.
  split; apply Permutation_in;
    [symmetry|]; apply sort_desc_perm.
Qed.

Lemma insert_desc_sorted (x : Score) (l : list Score) :
  comparable x -> Forall comparable l ->
  StronglySorted ge l -> StronglySorted ge (insert_desc x l).
Proof.
  intros Hx Hl Hs. induction Hs as [|y l Hs IH Hy]; simpl.
  - repeat constructor.
  - inversion Hl as [|? ? Cy Cl]; subst.
    destruct (confidence x <? confidence y)%float eqn:E.
    + constructor; [now apply IH|].
      rewrite Forall_forall. intros z Hz.
      apply (Permutation_in _ (Permutation_sym (insert_desc_perm x l))) in Hz.
      destruct Hz as [<-|Hz].
      * now apply FloatOrder.ltb_leb.
      * rewrite Forall_forall in Hy. now apply Hy.
    + assert (Hyx : ge x y) by now apply FloatOrder.not_ltb_leb.
      constructor; [now constructor|].
      constructor; [exact Hyx|].
      rewrite Forall_forall in Hy |- *. intros z Hz.
      unfold ge. eapply FloatOrder.leb_trans; [apply (Hy z Hz)|exact Hyx].
Qed.

Lemma sort_desc_sorted (l : list Score) :
  Forall comparable l -> StronglySorted ge (sort_desc l).
Proof.
  induction l as [|x l IH]; simpl; intros H; [constructor|].
  inversion H; subst.
  apply insert_desc_sorted; auto.
  rewrite Forall_forall in *. intros z Hz. rewrite sort_desc_In in Hz. auto.
Qed.

End Sorting.

(* ================================================================= *)
(** ** The dictionary of scores *)

Section Dictionary.

Lemma eqb_sym_false (a b : string) :
  String.eqb a b = false -> String.eqb b a = false.
Proof. rewrite !String.eqb_neq. congruence. Qed.

Lemma lookup_setitem (d : scores) (k k' : string) (v : Score) :
  lookup (setitem d k v) k'
  = if String.eqb k k' then Some v else lookup d k'.
Proof.
  induction d as [|[k0 v0] d IH]; simpl; [reflexivity|].
  destruct (String.eqb k0 k) eqn:E0; simpl.
  - apply String.eqb_eq in E0. subst k0.
    now destruct (String.eqb k k').
  - rewrite IH. destruct (String.eqb k0 k') eqn:E1; [|reflexivity].
    apply String.eqb_eq in E1. subst k0.
    now rewrite (eqb_sym_false _ _ E0).
Qed.

Lemma keys_setitem (d : scores) (k : string) (v : Score) :
  map fst (setitem d k v) = see (map fst d) k.
Proof.
  unfold see, contains.
  induction d as [|[k0 v0] d IH]; simpl; [reflexivity|].
  rewrite (String.eqb_sym k k0).
  destruct (String.eqb k0 k); simpl; [reflexivity|].
  rewrite IH. now destruct (existsb (String.eqb k) (map fst d)).
Qed.

Lemma contains_In (l : list string) (x : string) :
  contains l x = true <-> In x l.
Proof.
  unfold contains. rewrite existsb_exists. split.
  - intros (y & Hy & E). apply String.eqb_eq in E. now subst.
  - intros H. exists x. split; [exact H | apply String.eqb_refl].
Qed.

Lemma see_NoDup (seen : list string) (n : string) :
  NoDup seen -> NoDup (see seen n).
Proof.
  intros H. unfold see. destruct (contains seen n) eqn:E; [exact H|].
  apply NoDup_app; [exact H|repeat constructor; simpl; tauto|].
  intros x Hx [<-|[]].
  apply contains_In in Hx. congruence.
Qed.

Lemma lookup_In {V : Type} (d : list (string * V)) (k : string) (v : V) :
  lookup d k = Some v -> In (k, v) d.
Proof.
  induction d as [|[k0 v0] d IH]; simpl; [discriminate|].
  destruct (String.eqb k0 k) eqn:E.
  - apply String.eqb_eq in E. intros [= ->]. left. now subst.
  - auto.
Qed.

Lemma lookup_None {V : Type} (d : list (string * V)) (k : string) :
  lookup d k = None <-> ~ In k (map fst d).
Proof.
  induction d as [|[k0 v0] d IH]; simpl; [tauto|].
  destruct (String.eqb k0 k) eqn:E.
  - apply String.eqb_eq in E. split; [discriminate|tauto].
  - apply String.eqb_neq in E. tauto.
Qed.

Lemma In_lookup {V : Type} (d : list (string * V)) (k : string) (v : V) :
  NoDup (map fst d) -> In (k, v) d -> lookup d k = Some v.
Proof.
  induction d as [|[k0 v0] d IH]; simpl; [tauto|].
  intros N H. inversion N as [|? ? Hk Nd]; subst.
  destruct H as [[= -> ->]|H].
  - now rewrite String.eqb_refl.
  - destruct (String.eqb k0 k) eqn:E; [|auto].
    apply String.eqb_eq in E. subst k0.
    exfalso. apply Hk. apply (in_map fst) in H. exact H.
Qed.

End Dictionary.

(* ================================================================= *)
(** ** The two loops on records that can be read *)

Section Loops.

Lemma local_step_read (d : scores) (e : pydict) :
  match read e with
  | Some p => local_step d e = Ok (put_local d p)
  | None => exists x, local_step d e = Raise x
  end.
Proof.
  unfold read, local_step, put_local.
  destruct (getitem e "name") as [[s|x|]|x]; simpl; eauto.
  destruct (getitem e "confidence") as [[s'|c|]|x]; simpl; eauto.
Qed.

Lemma openai_step_read (d : scores) (e : pydict) :
  match read e with
  | Some p => openai_step d e = Ok (put_openai d p)
  | None => exists x, openai_step d e = Raise x
  end.
Proof.
  unfold read, openai_step, put_openai.
  destruct (getitem e "name") as [[s|x|]|x]; simpl; eauto.
  destruct (getitem e "confidence") as [[s'|c|]|x]; simpl;
    destruct (lookup d (lower s)); simpl; eauto.
Qed.

Lemma for_each_read (step : scores -> pydict -> result scores)
    (put : scores -> string * float -> scores) :
  (forall d e, match read e with
               | Some p => step d e = Ok (put d p)
               | None => exists x, step d e = Raise x
               end) ->
  forall l d,
    match readings l with
    | Some ps => for_each step l d = Ok (fold_left put ps d)
    | None => exists x, for_each step l d = Raise x
    end.
Proof.
  intros H. induction l as [|e l IH]; intros d; simpl; [reflexivity|].
  specialize (H d e). destruct (read e) as [p|].
  - rewrite H. simpl. specialize (IH (put d p)).
    destruct (readings l) as [ps|]; [exact IH|exact IH].
  - destruct H as (x & ->). simpl. eauto.
Qed.

Lemma collect_spec (local_results openai_results : list pydict) :
  match readings local_results, readings openai_results with
  | Some pl, Some pr =>
      collect local_results openai_results = Ok (dict_of pl pr)
  | _, _ => exists x, collect local_results openai_results = Raise x
  end.
Proof.
  unfold collect, dict_of.
  pose proof (for_each_read local_step put_local local_step_read
                local_results []) as HL.
  destruct (readings local_results) as [pl|].
  - rewrite HL. simpl.
    pose proof (for_each_read openai_step put_openai openai_step_read
                  openai_results (fold_left put_local pl [])) as HR.
    destruct (readings openai_results) as [pr|]; exact HR.
  - destruct HL as (x & ->). simpl. eauto.
Qed.

Lemma merge_read (local_results openai_results : list pydict)
    (pl pr : list (string * float)) :
  readings local_results = Some pl ->
  readings openai_results = Some pr ->
  merge_detection_results local_results openai_results
  = sort_desc (filter above_threshold (values (dict_of pl pr))).
Proof.
  intros HL HR. pose proof (collect_spec local_results openai_results) as H.
  rewrite HL, HR in H.
  unfold merge_detection_results, merge_body. now rewrite H.
Qed.

Lemma merge_unread (local_results openai_results : list pydict) :
  readings local_results = None \/ readings openai_results = None ->
  merge_detection_results local_results openai_results = [].
Proof.
  intros H. pose proof (collect_spec local_results openai_results) as C.
  assert (R : exists x, collect local_results openai_results = Raise x).
  { destruct H as [H|H]; rewrite H in C;
      [|destruct (readings local_results)]; exact C. }
  destruct R as (x & R).
  unfold merge_detection_results, merge_body. now rewrite R.
Qed.

Lemma readings_In (l : list pydict) (e : pydict) :
  In e l -> read e = None -> readings l = None.
Proof.
  induction l as [|e' l IH]; simpl; [tauto|].
  intros [->|H] R.
  - now rewrite R.
  - rewrite (IH H R). now destruct (read e').
Qed.

Lemma readings_names (l : list pydict) (ps : list (string * float)) :
  readings l = Some ps -> names l = map fst ps.
Proof.
  revert ps. unfold names.
  induction l as [|e l IH]; simpl; intros ps H.
  - now inversion H.
  - destruct (read e) as [p|]; [|discriminate].
    destruct (readings l) as [ps'|]; [|discriminate].
    inversion H; subst. simpl. f_equal. now apply IH.
Qed.

End Loops.


(* ================================================================= *)
(** ** Keys and values of the dictionary after the loops *)

Section Collected.

Lemma keys_put_local (d : scores) (p : string * float) :
  map fst (put_local d p) = see (map fst d) (fst p).
Proof. apply keys_setitem. Qed.

Lemma keys_put_openai (d : scores) (p : string * float) :
  map fst (put_openai d p) = see (map fst d) (fst p).
Proof.
  unfold put_openai. destruct (lookup d (fst p)); apply keys_setitem.
Qed.

Lemma keys_fold (put : scores -> string * float -> scores) :
  (forall d p, map fst (put d p) = see (map fst d) (fst p)) ->
  forall ps d,
    map fst (fold_left put ps d) = fold_left see (map fst ps) (map fst d).
Proof.
  intros H. induction ps as [|p ps IH]; intros d; simpl; [reflexivity|].
  now rewrite IH, H.
Qed.

Lemma keys_dict_of (pl pr : list (string * float)) :
  map fst (dict_of pl pr) = fold_left see (map fst pl ++ map fst pr) [].
Proof.
  unfold dict_of.
  rewrite (keys_fold put_openai keys_put_openai).
  rewrite (keys_fold put_local keys_put_local).
  now rewrite fold_left_app.
Qed.

Lemma fold_see_NoDup (l seen : list string) :
  NoDup seen -> NoDup (fold_left see l seen).
Proof.
  revert seen. induction l as [|n l IH]; simpl; intros seen H; [exact H|].
  apply IH. now apply see_NoDup.
Qed.

Lemma dict_of_NoDup (pl pr : list (string * float)) :
  NoDup (map fst (dict_of pl pr)).
Proof. rewrite keys_dict_of. apply fold_see_NoDup. constructor. Qed.

(** With each name read once, the local loop leaves under a name the
    weighted record of its reading. *)
Lemma local_lookup (pl : list (string * float)) :
  NoDup (map fst pl) ->
  forall d k,
    lookup (fold_left put_local pl d) k
    = match lookup pl k with
      | Some l => Some (mkScore k (l * 0.6)%float ["local_ml"])
      | None => lookup d k
      end.
Proof.
  induction pl as [|[k0 c0] pl IH]; simpl; intros N d k; [reflexivity|].
  inversion N as [|? ? Hk Npl]; subst.
  rewrite (IH Npl). unfold put_local. simpl. rewrite lookup_setitem.
  destruct (String.eqb k0 k) eqn:E.
  - apply String.eqb_eq in E. subst k0.
    apply lookup_None in Hk. now rewrite Hk.
  - reflexivity.
Qed.

Lemma openai_lookup (pr : list (string * float)) :
  NoDup (map fst pr) ->
  forall d k,
    lookup (fold_left put_openai pr d) k
    = match lookup pr k with
      | Some r => Some (boosted k (lookup d k) r)
      | None => lookup d k
      end.
Proof.
  induction pr as [|[k0 c0] pr IH]; simpl; intros N d k; [reflexivity|].
  inversion N as [|? ? Hk Npr]; subst.
  rewrite (IH Npr).
  assert (P : lookup (put_openai d (k0, c0)) k
              = if String.eqb k0 k then Some (boosted k0 (lookup d k0) c0)
                else lookup d k).
  { unfold put_openai, boosted. simpl.
    destruct (lookup d k0); now rewrite lookup_setitem. }
  rewrite P.
  destruct (String.eqb k0 k) eqn:E.
  - apply String.eqb_eq in E. subst k0.
    apply lookup_None in Hk. now rewrite Hk.
  - reflexivity.
Qed.

Lemma dict_of_lookup (pl pr : list (string * float)) (k : string) :
  NoDup (map fst pl) -> NoDup (map fst pr) ->
  lookup (dict_of pl pr) k
  = match lookup pl k, lookup pr k with
    | Some l, Some r =>
        Some (mkScore k
                (min2 ((l * 0.6 + r * 0.4) * 1.2)%float 1.0%float)
                ["local_ml"; "openai_vision"])
    | Some l, None => Some (mkScore k (l * 0.6)%float ["local_ml"])
    | None, Some r => Some (mkScore k (r * 0.4)%float ["openai_vision"])
    | None, None => None
    end.
Proof.
  intros Nl Nr. unfold dict_of.
  rewrite (openai_lookup pr Nr), (local_lookup pl Nl). simpl.
  destruct (lookup pl k), (lookup pr k); reflexivity.
Qed.

Lemma setitem_In (d : scores) (k : string) (v : Score) (k' : string)
    (v' : Score) :
  In (k', v') (setitem d k v) -> (k' = k /\ v' = v) \/ In (k', v') d.
Proof.
  induction d as [|[k0 v0] d IH]; simpl.
  - intros [[= <- <-]|[]]. auto.
  - destruct (String.eqb k0 k) eqn:E; simpl.
    + apply String.eqb_eq in E. subst k0.
      intros [[= <- <-]|H]; auto.
    + intros [H|H]; [auto|]. destruct (IH H); auto.
Qed.

Lemma setitem_well_keyed (d : scores) (k : string) (v : Score) :
  well_keyed d -> name v = k -> well_keyed (setitem d k v).
Proof.
  intros W Hv k' v' H. apply setitem_In in H.
  destruct H as [[-> ->]|H]; [exact Hv|now apply W].
Qed.

Lemma put_local_well_keyed (d : scores) (p : string * float) :
  well_keyed d -> well_keyed (put_local d p).
Proof. intros W. now apply setitem_well_keyed. Qed.

Lemma put_openai_well_keyed (d : scores) (p : string * float) :
  well_keyed d -> well_keyed (put_openai d p).
Proof.
  intros W. unfold put_openai.
  destruct (lookup d (fst p)) as [old|] eqn:E;
    apply setitem_well_keyed; auto.
  simpl. apply W. now apply lookup_In.
Qed.

Lemma fold_well_keyed (put : scores -> string * float -> scores) :
  (forall d p, well_keyed d -> well_keyed (put d p)) ->
  forall ps d, well_keyed d -> well_keyed (fold_left put ps d).
Proof.
  intros H. induction ps as [|p ps IH]; simpl; auto.
Qed.

Lemma dict_of_well_keyed (pl pr : list (string * float)) :
  well_keyed (dict_of pl pr).
Proof.
  unfold dict_of.
  apply (fold_well_keyed put_openai put_openai_well_keyed).
  apply (fold_well_keyed put_local put_local_well_keyed).
  intros k v [].
Qed.

Lemma values_In (d : scores) (m : Score) :
  In m (values d) <-> exists k, In (k, m) d.
Proof.
  unfold values. rewrite in_map_iff. split.
  - intros ([k v] & E & H). simpl in E. subst. eauto.
  - intros (k & H). exists (k, m). auto.
Qed.

Lemma dict_of_values (pl pr : list (string * float)) (m : Score) :
  In m (values (dict_of pl pr))
  <-> lookup (dict_of pl pr) (name m) = Some m.
Proof.
  rewrite values_In. split.
  - intros (k & H).
    rewrite (dict_of_well_keyed pl pr k m H).
    apply In_lookup; [apply dict_of_NoDup|exact H].
  - intros H. exists (name m). now apply lookup_In.
Qed.

Lemma values_names (d : scores) :
  well_keyed d -> map name (values d) = map fst d.
Proof.
  unfold values. rewrite map_map. intros W.
  apply map_ext_in. intros [k v] H. simpl. now apply W.
Qed.

End Collected.


(* ================================================================= *)
(** ** The threshold *)

Lemma above_threshold_spec (m : Score) :
  above_threshold m = true <-> (0.3 <? confidence m)%float = true.
Proof. reflexivity. Qed.

Lemma above_threshold_comparable (m : Score) :
  above_threshold m = true -> comparable m.
Proof.
  intros H. apply (FloatOrder.ltb_not_nan _ _ H).
Qed.

Lemma merge_In (local_results openai_results : list pydict) (m : Score) :
  In m (merge_detection_results local_results openai_results) ->
  exists d, collect local_results openai_results = Ok d
            /\ In m (values d) /\ above_threshold m = true.
Proof.
  unfold merge_detection_results, merge_body.
  destruct (collect local_results openai_results) as [d|e]; simpl;
    [|contradiction].
  rewrite sort_desc_In, filter_In. eauto.
Qed.

Lemma merge_confident (local_results openai_results : list pydict)
    (m : Score) :
  In m (merge_detection_results local_results openai_results) ->
  (0.3 <? confidence m)%float = true.
Proof.
  intros H. apply merge_In in H. destruct H as (d & _ & _ & H). exact H.
Qed.

(** C3.  Every record of the merged list has a confidence strictly
    above 0.3; a record of the dictionary at or below the threshold is
    not returned, and a lone local detection of 0.4, weighted to 0.24,
    gives the empty list. *)
Theorem merge_above_threshold :
  (forall local_results openai_results m,
      In m (merge_detection_results local_results openai_results) ->
      (0.3 <? confidence m)%float = true)
  /\ (forall local_results openai_results d m,
        collect local_results openai_results = Ok d ->
        In m (values d) ->
        (In m (merge_detection_results local_results openai_results)
         <-> (0.3 <? confidence m)%float = true))
  /\ (collect [local_entry "parsley" 0.4%float] []
        = Ok [("parsley", mkScore "parsley" 0.24%float ["local_ml"])]
      /\ merge_detection_results [local_entry "parsley" 0.4%float] [] = []).
Proof.
  split; [|split].
  - exact merge_confident.
  - intros l o d m Hd Hm. unfold merge_detection_results, merge_body.
    rewrite Hd. simpl. rewrite sort_desc_In, filter_In. tauto.
  - split; reflexivity.
Qed.

(** C3 at a lone local detection of a tomato with confidence 0.9. *)
Lemma merge_above_threshold_witness :
  In (mkScore "tomato" 0.54%float ["local_ml"])
     (merge_detection_results [local_entry "tomato" 0.9%float] [])
  /\ (0.3 <? confidence (mkScore "tomato" 0.54%float ["local_ml"]))%float
     = true.
Proof.
  assert (H : In (mkScore "tomato" 0.54%float ["local_ml"])
                (merge_detection_results [local_entry "tomato" 0.9%float] []))
    by (left; vm_compute; reflexivity).
  split; [exact H|].
  exact (proj1 merge_above_threshold _ _ _ H).
Defined.

(* ================================================================= *)
(** ** The weighting rule *)

(** C2 does not hold as stated.  Local tomato 0.9 with remote tomato
    0.8 gives (0.54 + 0.32) * 1.2 = 1.032, which the cap turns into 1.0,
    not 0.8208.  And a name that only the remote detector reports, but
    twice, is not weighted by 0.4: the second record finds the first
    one and is treated as an agreement. *)
Lemma merge_weighting_counterexample :
  merge_detection_results
    [local_entry "tomato" 0.9%float] [openai_entry "tomato" 0.8%float]
  = [mkScore "tomato" 1.0%float ["local_ml"; "openai_vision"]]
  /\ ((0.9 * 0.6 + 0.8 * 0.4) * 1.2 = 1.032)%float
  /\ (1.0 =? 0.8208)%float = false
  /\ merge_detection_results []
       [openai_entry "basil" 0.85%float; openai_entry "basil" 0.85%float]
     = [mkScore "basil" ((0.85 * 0.4 + 0.85 * 0.4) * 1.2)%float
          ["openai_vision"; "openai_vision"]]
  /\ ((0.85 * 0.4 + 0.85 * 0.4) * 1.2 =? 0.85 * 0.4)%float = false.
Proof.
  repeat split; vm_compute; reflexivity.
Qed.

(** C2, amended.  For input lists of readable records in which no
    normalized name occurs twice within one list, the merged list holds
    exactly the records above the threshold that the weighting rule
    gives: [l * 0.6] for a name only the local detector found,
    [r * 0.4] for a name only the remote detector found, and
    [min((l * 0.6 + r * 0.4) * 1.2, 1.0)] with both sources for a name
    found by both.  Local tomato 0.9 with remote tomato 0.8 yields the
    confidence 1.0. *)
Theorem merge_weighting :
  (forall local_results openai_results pl pr,
      readings local_results = Some pl ->
      readings openai_results = Some pr ->
      NoDup (map fst pl) -> NoDup (map fst pr) ->
      forall m,
        In m (merge_detection_results local_results openai_results)
        <-> (0.3 <? confidence m)%float = true /\ weighted pl pr m)
  /\ merge_detection_results
       [local_entry "tomato" 0.9%float] [openai_entry "tomato" 0.8%float]
     = [mkScore "tomato" 1.0%float ["local_ml"; "openai_vision"]].
Proof.
  split; [|vm_compute; reflexivity].
  intros L R pl pr HL HR Nl Nr m.
  rewrite (merge_read L R pl pr HL HR), sort_desc_In, filter_In.
  rewrite dict_of_values, (dict_of_lookup pl pr (name m) Nl Nr).
  rewrite above_threshold_spec.
  assert (Il : forall l, In (name m, l) pl <-> lookup pl (name m) = Some l).
  { intros l. split; [now apply In_lookup|apply lookup_In]. }
  assert (Ir : forall r, In (name m, r) pr <-> lookup pr (name m) = Some r).
  { intros r. split; [now apply In_lookup|apply lookup_In]. }
  unfold weighted.
  setoid_rewrite Il. setoid_rewrite Ir. setoid_rewrite <- lookup_None.
  destruct m as [k c s]. simpl.
  destruct (lookup pl k) as [l|], (lookup pr k) as [r|].
  - split.
    + intros ([= <- <-] & T). split; [exact T|].
      right; right. exists l, r. auto.
    + intros (T & [(l' & _ & [=] & _)|[(r' & _ & [=] & _)
                 |(l' & r' & [= <-] & [= <-] & -> & ->)]]).
      auto.
  - split.
    + intros ([= <- <-] & T). split; [exact T|].
      left. exists l. auto.
    + intros (T & [(l' & [= <-] & _ & -> & ->)|[(r' & [=] & _)
                 |(l' & r' & _ & [=] & _)]]).
      auto.
  - split.
    + intros ([= <- <-] & T). split; [exact T|].
      right; left. exists r. auto.
    + intros (T & [(l' & [=] & _)|[(r' & [= <-] & _ & -> & ->)
                 |(l' & r' & [=] & _)]]).
      auto.
  - split.
    + intros ([=] & _).
    + intros (T & [(l' & [=] & _)|[(r' & [=] & _)|(l' & r' & [=] & _)]]).
Qed.

(** The amended C2 at local Tomato 0.9 and remote tomato 0.8. *)
Lemma merge_weighting_witness :
  weighted [("tomato", 0.9%float)] [("tomato", 0.8%float)]
    (mkScore "tomato" 1.0%float ["local_ml"; "openai_vision"]).
Proof.
  refine (proj2 (proj1 (proj1 merge_weighting
    [local_entry "Tomato" 0.9%float] [openai_entry "tomato" 0.8%float]
    [("tomato", 0.9%float)] [("tomato", 0.8%float)]
    eq_refl eq_refl _ _
    (mkScore "tomato" 1.0%float ["local_ml"; "openai_vision"])) _)).
  - repeat constructor; simpl; tauto.
  - repeat constructor; simpl; tauto.
  - left. vm_compute. reflexivity.
Defined.

(* ================================================================= *)
(** ** Positions: who stands in front of whom *)

Section Positions.

Context {A : Type}.

Lemma before_precedes (a b : A) (l : list A) :
  before a b l <-> precedes l a b.
Proof.
  unfold precedes. induction l as [|x l IH]; simpl.
  - split; [tauto|]. intros (i & j & _ & H & _). now destruct i.
  - split.
    + intros [[-> H]|H].
      * apply In_nth_error in H. destruct H as (j & H).
        exists 0%nat, (S j). repeat split; [lia|exact H].
      * apply IH in H. destruct H as (i & j & L & Hi & Hj).
        exists (S i), (S j). repeat split; [lia|exact Hi|exact Hj].
    + intros (i & j & L & Hi & Hj).
      destruct j as [|j]; [lia|]. simpl in Hj.
      destruct i as [|i]; simpl in Hi.
      * left. inversion Hi. split; [reflexivity|].
        now apply nth_error_In in Hj.
      * right. apply IH. exists i, j. repeat split; [lia|exact Hi|exact Hj].
Qed.

Lemma before_filter (f : A -> bool) (a b : A) (l : list A) :
  before a b (filter f l) -> before a b l.
Proof.
  induction l as [|x l IH]; simpl; [tauto|].
  destruct (f x); simpl.
  - intros [[-> H]|H]; [|tauto].
    left. split; [reflexivity|]. now apply filter_In in H.
  - tauto.
Qed.

Lemma before_map {B : Type} (f : A -> B) (a b : A) (l : list A) :
  before a b l -> before (f a) (f b) (map f l).
Proof.
  induction l as [|x l IH]; simpl; [tauto|].
  intros [[-> H]|H]; [|tauto].
  left. split; [reflexivity|]. now apply in_map.
Qed.

End Positions.

(* ================================================================= *)
(** ** Stability of the sort *)

Section Stability.

(** Inserting [x] keeps the order of the others; [x] itself passes only
    records of strictly higher confidence. *)
Lemma insert_desc_before (x a b : Score) (l : list Score) :
  before a b (insert_desc x l) ->
  before a b l
  \/ (a = x /\ In b l)
  \/ (b = x /\ In a l /\ (confidence x <? confidence a)%float = true).
Proof.
  induction l as [|y l IH]; simpl.
  - intros [[_ []]|[]].
  - destruct (confidence x <? confidence y)%float eqn:E; simpl.
    + intros [[-> H]|H].
      * apply (Permutation_in _ (Permutation_sym (insert_desc_perm x l)))
          in H.
        destruct H as [<-|H]; [|tauto].
        right; right. tauto.
      * destruct (IH H) as [H'|[[-> H']|(-> & H' & H'')]]; tauto.
    + intros [[-> H]|H]; tauto.
Qed.

(** The sort is stable: a record gets in front of another one that
    stood before it only with a strictly higher confidence. *)
Lemma sort_desc_before (a b : Score) (l : list Score) :
  before a b (sort_desc l) ->
  before a b l \/ (confidence b <? confidence a)%float = true.
Proof.
  induction l as [|x l IH]; simpl; [tauto|].
  intros H. apply insert_desc_before in H.
  destruct H as [H|[[-> H]|(-> & H & E)]].
  - destruct (IH H); tauto.
  - rewrite sort_desc_In in H. left; left. split; [reflexivity|exact H].
  - now right.
Qed.

Lemma merge_comparable (local_results openai_results : list pydict) :
  Forall comparable (merge_detection_results local_results openai_results).
Proof.
  rewrite Forall_forall. intros m H.
  apply above_threshold_comparable.
  apply merge_In in H. now destruct H as (d & _ & _ & H).
Qed.

End Stability.


(* ================================================================= *)
(** ** Order of the merged list *)

Lemma merge_sorted (local_results openai_results : list pydict) :
  StronglySorted ge (merge_detection_results local_results openai_results).
Proof.
  unfold merge_detection_results, merge_body.
  destruct (collect local_results openai_results) as [d|x]; simpl;
    [|constructor].
  apply sort_desc_sorted.
  rewrite Forall_forall. intros m H. apply filter_In in H.
  now apply above_threshold_comparable.
Qed.

Lemma merge_before (local_results openai_results : list pydict)
    (a b : Score) :
  before a b (merge_detection_results local_results openai_results) ->
  before (name a) (name b) (first_seen local_results openai_results)
  \/ (confidence b <? confidence a)%float = true.
Proof.
  destruct (readings local_results) as [pl|] eqn:HL;
    [destruct (readings openai_results) as [pr|] eqn:HR|].
  - rewrite (merge_read _ _ pl pr HL HR). intros H.
    apply sort_desc_before in H. destruct H as [H|H]; [left|now right].
    apply before_filter in H. apply (before_map name) in H.
    rewrite (values_names _ (dict_of_well_keyed pl pr)) in H.
    rewrite keys_dict_of in H.
    unfold first_seen.
    now rewrite (readings_names _ _ HL), (readings_names _ _ HR).
  - rewrite merge_unread by auto. intros [].
  - rewrite merge_unread by auto. intros [].
Qed.

(** C5.  The merged list is sorted by confidence, highest first, and
    of two of its records with equal confidence the one whose name was
    met first in the inputs (local list, then remote list) comes
    first. *)
Theorem merge_sorted_stable (local_results openai_results : list pydict) :
  let merged := merge_detection_results local_results openai_results in
  StronglySorted ge merged
  /\ (forall i j a b,
        (i < j)%nat ->
        nth_error merged i = Some a -> nth_error merged j = Some b ->
        (confidence b <=? confidence a)%float = true)
  /\ (forall a b,
        precedes merged a b ->
        (confidence a =? confidence b)%float = true ->
        precedes (first_seen local_results openai_results)
          (name a) (name b)).
Proof.
  intros merged. pose proof (merge_sorted local_results openai_results) as S.
  fold merged in S. split; [exact S|split].
  - intros i j a b L Hi Hj.
    assert (B : before a b merged).
    { apply before_precedes. exists i, j. auto. }
    clear - S B. induction S as [|x l S IH F]; simpl in B; [tauto|].
    destruct B as [[-> H]|H]; [|auto].
    rewrite Forall_forall in F. now apply F.
  - intros a b P E. apply before_precedes in P.
    apply merge_before in P. destruct P as [P|P].
    + now apply before_precedes.
    + apply FloatOrder.ltb_not_eqb in P. congruence.
Qed.


(** C5 at two local records of equal confidence: "pear" is met before
    "apple" and stays in front of it. *)
Lemma merge_sorted_stable_witness :
  precedes
    (first_seen [local_entry "pear" 0.6%float; local_entry "apple" 0.6%float]
       [])
    "pear" "apple".
Proof.
  apply (proj2 (proj2 (merge_sorted_stable
           [local_entry "pear" 0.6%float; local_entry "apple" 0.6%float] []))
           (mkScore "pear" (0.6 * 0.6)%float ["local_ml"])
           (mkScore "apple" (0.6 * 0.6)%float ["local_ml"])).
  - exists 0%nat, 1%nat. split; [lia|split; reflexivity].
  - vm_compute. reflexivity.
Defined.

(** Scenarios: a lone local detection; three names that come out in
    descending order of confidence; the two detectors on one image. *)
Example merge_local_only :
  merge_detection_results [local_entry "tomato" 0.9%float] []
  = [mkScore "tomato" 0.54%float ["local_ml"]].
Proof. vm_compute. reflexivity. Qed.

Example merge_descending :
  map name
    (merge_detection_results
       [local_entry "kale" 0.9%float; local_entry "leek" 0.6%float;
        local_entry "corn" 0.7%float] [])
  = ["kale"; "corn"; "leek"].
Proof. vm_compute. reflexivity. Qed.

Example merge_two_detectors :
  map (fun m => (name m, sources m))
    (merge_detection_results
       [local_entry "tomato" 0.92%float; local_entry "onion" 0.87%float;
        local_entry "garlic" 0.75%float]
       [openai_entry "tomato" 0.85%float; openai_entry "basil" 0.85%float])
  = [("tomato", ["local_ml"; "openai_vision"]); ("onion", ["local_ml"]);
     ("garlic", ["local_ml"]); ("basil", ["openai_vision"])].
Proof. vm_compute. reflexivity. Qed.

(* ================================================================= *)
(** ** Where the merged records come from *)

Section Provenance.

Lemma read_name (e : pydict) (k : string) (c : float) :
  read e = Some (k, c) ->
  exists s, getitem e "name" = Ok (PStr s) /\ k = lower s
            /\ getitem e "confidence" = Ok (PNum c).
Proof.
  unfold read.
  destruct (getitem e "name") as [[s|x|]|x]; try discriminate.
  destruct (getitem e "confidence") as [[s'|c'|]|x]; try discriminate.
  intros [= <- <-]. eauto.
Qed.

Lemma malformed_unread (e : pydict) : malformed e -> read e = None.
Proof.
  unfold malformed, read. intros [-> | H]; [reflexivity|].
  destruct (getitem e "name") as [[s|x|]|x]; try reflexivity.
  now rewrite H.
Qed.

Lemma readings_pairs (l : list pydict) (ps : list (string * float))
    (p : string * float) :
  readings l = Some ps -> In p ps -> exists e, In e l /\ read e = Some p.
Proof.
  revert ps. induction l as [|e l IH]; simpl; intros ps H Hp.
  - inversion H; subst. destruct Hp.
  - destruct (read e) as [q|] eqn:E; [|discriminate].
    destruct (readings l) as [qs|]; [|discriminate].
    inversion H; subst. destruct Hp as [->|Hp]; [eauto|].
    destruct (IH qs eq_refl Hp) as (e' & He' & R). eauto.
Qed.

Lemma fold_see_In (l seen : list string) (k : string) :
  In k (fold_left see l seen) -> In k l \/ In k seen.
Proof.
  revert seen. induction l as [|n l IH]; simpl; intros seen H; [tauto|].
  apply IH in H. destruct H as [H|H]; [tauto|].
  unfold see in H. destruct (contains seen n); [tauto|].
  apply in_app_or in H. simpl in H. tauto.
Qed.

Lemma names_In (l : list pydict) (k : string) :
  In k (names l) ->
  exists e s, In e l /\ getitem e "name" = Ok (PStr s) /\ k = lower s.
Proof.
  unfold names. rewrite in_flat_map. intros (e & He & H).
  destruct (read e) as [[k' c]|] eqn:R; [|destruct H].
  destruct H as [<-|[]]. simpl.
  destruct (read_name _ _ _ R) as (s & Hs & -> & _). eauto.
Qed.

Lemma merge_name_seen (local_results openai_results : list pydict)
    (m : Score) :
  In m (merge_detection_results local_results openai_results) ->
  In (name m) (first_seen local_results openai_results).
Proof.
  destruct (readings local_results) as [pl|] eqn:HL;
    [destruct (readings openai_results) as [pr|] eqn:HR|].
  - rewrite (merge_read _ _ pl pr HL HR), sort_desc_In, filter_In.
    intros [H _]. apply (in_map name) in H.
    rewrite (values_names _ (dict_of_well_keyed pl pr)) in H.
    rewrite keys_dict_of in H. unfold first_seen.
    now rewrite (readings_names _ _ HL), (readings_names _ _ HR).
  - rewrite merge_unread by auto. intros [].
  - rewrite merge_unread by auto. intros [].
Qed.

Lemma filter_map_NoDup {A B : Type} (f : A -> B) (g : A -> bool)
    (l : list A) :
  NoDup (map f l) -> NoDup (map f (filter g l)).
Proof.
  induction l as [|x l IH]; simpl; intros N; [constructor|].
  inversion N as [|? ? Hx Nl]; subst.
  destruct (g x); simpl; [|auto].
  constructor; [|auto].
  rewrite in_map_iff in *. intros (y & E & Hy).
  apply filter_In in Hy. apply Hx. exists y. tauto.
Qed.

Lemma merge_names_NoDup (local_results openai_results : list pydict) :
  NoDup (map name (merge_detection_results local_results openai_results)).
Proof.
  destruct (readings local_results) as [pl|] eqn:HL;
    [destruct (readings openai_results) as [pr|] eqn:HR|].
  - rewrite (merge_read _ _ pl pr HL HR).
    eapply Permutation_NoDup.
    + apply Permutation_map. apply sort_desc_perm.
    + apply filter_map_NoDup.
      rewrite (values_names _ (dict_of_well_keyed pl pr)).
      apply dict_of_NoDup.
  - rewrite merge_unread by auto. constructor.
  - rewrite merge_unread by auto. constructor.
Qed.

(** Invariants of the values along a loop. *)
Lemma fold_values (P : Score -> Prop)
    (put : scores -> string * float -> scores) :
  (forall d p, (forall v, In v (values d) -> P v) ->
               forall v, In v (values (put d p)) -> P v) ->
  forall ps d, (forall v, In v (values d) -> P v) ->
               forall v, In v (values (fold_left put ps d)) -> P v.
Proof.
  intros H. induction ps as [|p ps IH]; simpl; intros d Hd; [exact Hd|].
  apply IH. now apply H.
Qed.

Lemma setitem_values (d : scores) (k : string) (v m : Score) :
  In m (values (setitem d k v)) -> m = v \/ In m (values d).
Proof.
  rewrite !values_In. intros (k' & H). apply setitem_In in H.
  destruct H as [[_ ->]|H]; eauto.
Qed.

End Provenance.


(* ================================================================= *)
(** ** Failure of the merger, and normalization of names *)

Lemma local_fold_values (ps : list (string * float)) :
  forall d v,
    In v (values (fold_left put_local ps d)) ->
    In v (values d)
    \/ exists p, In p ps
                 /\ v = mkScore (fst p) (snd p * 0.6)%float ["local_ml"].
Proof.
  induction ps as [|p ps IH]; simpl; intros d v H; [tauto|].
  apply IH in H. destruct H as [H|(q & Hq & ->)]; [|eauto].
  apply setitem_values in H. destruct H as [->|H]; eauto.
Qed.

Lemma openai_fold_sources (ps : list (string * float)) (v : Score) :
  In v (values (fold_left put_openai ps [])) ->
  ~ In "local_ml" (sources v).
Proof.
  revert v.
  apply (fold_values (fun v => ~ In "local_ml" (sources v)) put_openai).
  - intros d p Hd v H. unfold put_openai in H.
    destruct (lookup d (fst p)) as [old|] eqn:E;
      apply setitem_values in H; destruct H as [->|H]; auto; simpl.
    + intros H. apply in_app_or in H. destruct H as [H|[H|[]]].
      * apply (Hd old); [|exact H].
        apply values_In. exists (fst p). now apply lookup_In.
      * discriminate H.
    + intros [H|[]]. discriminate H.
  - intros v [].
Qed.

(** C6 does not hold as stated: a record without a name makes the
    merger return the empty list, although the tomato record of the same
    batch is well-formed and, alone, is returned with 0.54. *)
Lemma merge_malformed_counterexample :
  malformed [("confidence", PNum 0.5%float)]
  /\ merge_detection_results [local_entry "tomato" 0.9%float] []
     = [mkScore "tomato" 0.54%float ["local_ml"]]
  /\ merge_detection_results
       [local_entry "tomato" 0.9%float; [("confidence", PNum 0.5%float)]] []
     = [].
Proof.
  split; [left; reflexivity|]. split; vm_compute; reflexivity.
Qed.

(** C6, amended.  The merger never raises: an exception of its body is
    turned into the empty list.  An empty input list contributes
    nothing: with no remote record every merged record is a local
    reading weighted by 0.6 with the local source alone, and with no
    local record no merged record has the local source.  A record
    without a name or without a confidence, in either list, makes the
    result the empty list: the whole batch is dropped. *)
Theorem merge_all_or_nothing :
  (forall local_results openai_results,
      merge_body local_results openai_results
      = Ok (merge_detection_results local_results openai_results)
      \/ ((exists x, merge_body local_results openai_results = Raise x)
          /\ merge_detection_results local_results openai_results = []))
  /\ (forall local_results m,
        In m (merge_detection_results local_results []) ->
        exists e l,
          In e local_results /\ read e = Some (name m, l)
          /\ confidence m = (l * 0.6)%float
          /\ sources m = ["local_ml"])
  /\ (forall openai_results m,
        In m (merge_detection_results [] openai_results) ->
        ~ In "local_ml" (sources m))
  /\ (forall local_results openai_results e,
        In e (local_results ++ openai_results) -> malformed e ->
        merge_detection_results local_results openai_results = []).
Proof.
  split; [|split; [|split]].
  - intros L R. unfold merge_detection_results.
    destruct (merge_body L R) as [out|x]; [left|right]; eauto.
  - intros L m H.
    destruct (readings L) as [pl|] eqn:HL;
      [|rewrite merge_unread in H by auto; destruct H].
    rewrite (merge_read L [] pl [] HL eq_refl), sort_desc_In, filter_In in H.
    destruct H as [H _]. unfold dict_of in H. simpl in H.
    apply local_fold_values in H. destruct H as [[]|([k l] & Hp & ->)].
    destruct (readings_pairs _ _ _ HL Hp) as (e & He & R).
    exists e, l. simpl. auto.
  - intros R m H.
    destruct (readings R) as [pr|] eqn:HR;
      [|rewrite merge_unread in H by auto; destruct H].
    rewrite (merge_read [] R [] pr eq_refl HR), sort_desc_In, filter_In in H.
    destruct H as [H _]. now apply openai_fold_sources in H.
  - intros L R e He M. apply malformed_unread in M.
    apply merge_unread. apply in_app_or in He.
    destruct He as [He|He]; [left|right]; eapply readings_In; eauto.
Qed.

(** The amended C6 at a batch whose second record has no name. *)
Lemma merge_all_or_nothing_witness :
  merge_detection_results
    [local_entry "tomato" 0.9%float; [("confidence", PNum 0.5%float)]]
    [openai_entry "basil" 0.85%float]
  = [].
Proof.
  apply (proj2 (proj2 (proj2 merge_all_or_nothing))
           [local_entry "tomato" 0.9%float; [("confidence", PNum 0.5%float)]]
           [openai_entry "basil" 0.85%float]
           [("confidence", PNum 0.5%float)]).
  - simpl. tauto.
  - left. reflexivity.
Defined.

(** C8 does not hold as stated: the name is lowercased but not
    trimmed.  "tomato" with a leading space and "tomato" name one
    ingredient after trimming, yet the merged list has two records. *)
Lemma merge_keeps_whitespace_counterexample :
  lower (strip " tomato") = lower (strip "tomato")
  /\ map name
       (merge_detection_results
          [local_entry " tomato" 0.9%float] [openai_entry "tomato" 0.8%float])
     = [" tomato"; "tomato"]
  /\ map sources
       (merge_detection_results
          [local_entry " tomato" 0.9%float] [openai_entry "tomato" 0.8%float])
     = [["local_ml"]; ["openai_vision"]].
Proof.
  repeat split; vm_compute; reflexivity.
Qed.



(* ================================================================= *)
(** ** The upload route: ranking and cap *)

Section Upload.

Lemma unique_step_values (d : scores) (x m : Score) :
  In m (values (unique_step d x)) -> m = x \/ In m (values d).
Proof.
  unfold unique_step.
  destruct (lookup d (lower (name x))) as [seen|].
  - destruct (gt (confidence x) (confidence seen)); [|tauto].
    apply setitem_values.
  - apply setitem_values.
Qed.

Lemma unique_values (all : list Score) :
  forall d m,
    In m (values (fold_left unique_step all d)) ->
    In m all \/ In m (values d).
Proof.
  induction all as [|x all IH]; simpl; intros d m H; [tauto|].
  apply IH in H. destruct H as [H|H]; [tauto|].
  apply unique_step_values in H. destruct H as [->|H]; tauto.
Qed.

Lemma final_In (detections : list (list pydict * list pydict)) (m : Score) :
  In m (final_ingredients detections) ->
  exists d, In d detections
            /\ In m (merge_detection_results (fst d) (snd d)).
Proof.
  unfold final_ingredients, unique_ingredients, all_ingredients.
  rewrite sort_desc_In. intros H.
  apply unique_values in H. destruct H as [H|[]].
  now apply in_flat_map in H.
Qed.


Lemma In_firstn {A : Type} (n : nat) (l : list A) (x : A) :
  In x (firstn n l) -> In x l.
Proof.
  intros H. rewrite <- (firstn_skipn n l). apply in_or_app. now left.
Qed.


End Upload.




(* ================================================================= *)
(** ** The recipe synthesizer *)

Lemma any_keyword (l keywords : list string) :
  existsb (fun k => contains l k) keywords = true
  <-> exists x, In x l /\ In x keywords.
Proof.
  rewrite existsb_exists. split.
  - intros (k & Hk & H). apply contains_In in H. eauto.
  - intros (x & Hl & Hk). exists x. split; [exact Hk | now apply contains_In].
Qed.

Lemma no_keyword (l keywords : list string) :
  existsb (fun k => contains l k) keywords = false
  <-> forall x, In x l -> ~ In x keywords.
Proof.
  rewrite <- not_true_iff_false, any_keyword. split.
  - intros H x Hl Hk. apply H. eauto.
  - intros H (x & Hl & Hk). exact (H x Hl Hk).
Qed.

(** What the fallback returns on a non-empty ingredient list. *)
Lemma fallback_cons (first : string) (rest : list string)
    (dietary : option (list string)) (cuisine level : option string) :
  fallback_rule_based_recipe (mkRequest (first :: rest) dietary cuisine level)
  = if existsb (fun k => contains (first :: rest) k) grains
    then grain_based first (first :: rest)
    else if existsb (fun k => contains (first :: rest) k) proteins
    then protein_based first first
    else vegetable_stir_fry.
Proof.
  unfold fallback_rule_based_recipe, fallback_body, recipe_type.
  cbn [ingredients index0 bind].
  destruct (existsb (fun k => contains (first :: rest) k) grains);
    [reflexivity|].
  destruct (existsb (fun k => contains (first :: rest) k) proteins);
    reflexivity.
Qed.

Lemma fallback_raises_iff (request : GeneratedRecipeRequest) :
  (exists e, fallback_body request = Raise e) <-> ingredients request = [].
Proof.
  unfold fallback_body. destruct (ingredients request) as [|x l]; simpl.
  - split; eauto.
  - split; [intros (e & H)|intros H]; discriminate.
Qed.

Lemma nonempty_app_r (s t : string) :
  nonempty t = true -> nonempty (s ++ t)%string = true.
Proof. destruct s; simpl; auto. Qed.

Lemma fallback_valid (request : GeneratedRecipeRequest) :
  ingredients request <> [] ->
  valid_recipe (fallback_rule_based_recipe request) = true.
Proof.
  destruct request as [ings d c l]. simpl.
  destruct ings as [|first rest]; [congruence|]. intros _.
  rewrite fallback_cons.
  destruct (existsb _ grains); [|destruct (existsb _ proteins)].
  - unfold valid_recipe, grain_based. cbn [title steps estimated_time servings
      difficulty].
    rewrite nonempty_app_r by reflexivity. reflexivity.
  - reflexivity.
  - reflexivity.
Qed.

Lemma valid_recipe_spec (r : GeneratedRecipe) :
  valid_recipe r = true <->
  title r <> EmptyString
  /\ steps r <> []
  /\ (forall s, In s (steps r) -> s <> EmptyString)
  /\ (0 < estimated_time r)%Z
  /\ (0 < servings r)%Z
  /\ (difficulty r = "easy" \/ difficulty r = "medium"
      \/ difficulty r = "hard").
Proof.
  assert (N : forall s, nonempty s = true <-> s <> EmptyString).
  { intros [|c s]; simpl; split; congruence. }
  unfold valid_recipe, valid_difficulty.
  rewrite !andb_true_iff, !orb_true_iff, !String.eqb_eq, !Z.ltb_lt,
    forallb_forall, negb_true_iff, Nat.eqb_neq, N.
  setoid_rewrite N.
  assert (L : List.length (steps r) <> 0%nat <-> steps r <> []).
  { destruct (steps r); simpl; split; congruence. }
  rewrite L. tauto.
Qed.

Lemma generate_on_failure (json_loads : string -> result json)
    (response : result string) (request : GeneratedRecipeRequest) (e : exn) :
  generative_attempt json_loads response = Raise e ->
  generate_ai_recipe json_loads response request
  = fallback_rule_based_recipe request.
Proof.
  unfold generate_ai_recipe. intros ->. now destruct e.
Qed.

(** C1 does not hold as stated: a reply that is well-formed JSON of
    the requested shape is returned as it is, whatever its values.
    Here the returned recipe has an empty title, no step, a time and a
    number of servings of zero and the difficulty "expert". *)
Lemma synthesize_returns_unchecked_reply :
  generate_ai_recipe loads_degenerate (Ok degenerate_reply)
    (request_for ["tomato"; "onion"])
  = mkRecipe EmptyString [] 0 "expert" None 0
  /\ ~ (forall json_loads response request,
          ingredients request <> [] ->
          valid_recipe (generate_ai_recipe json_loads response request) = true).
Proof.
  assert (E : generate_ai_recipe loads_degenerate (Ok degenerate_reply)
                (request_for ["tomato"; "onion"])
              = mkRecipe EmptyString [] 0 "expert" None 0)
    by (vm_compute; reflexivity).
  split; [exact E|].
  intros H.
  specialize (H loads_degenerate (Ok degenerate_reply)
                (request_for ["tomato"; "onion"])).
  rewrite E in H. simpl in H.
  assert (T : true = false) by (symmetry; apply H; discriminate).
  discriminate T.
Qed.



(** C7.  When the construction of the templates raises, the fallback
    returns the fixed last-resort recipe: the title "Simple Ingredient
    Mix", three fixed steps, 20 minutes, easy, 4 servings. *)
Theorem fallback_last_resort (request : GeneratedRecipeRequest) (e : exn) :
  fallback_body request = Raise e ->
  let r := fallback_rule_based_recipe request in
  r = absolute_fallback
  /\ title r = "Simple Ingredient Mix"
  /\ steps r = [ "Combine all available ingredients";
                 "Cook with basic seasonings";
                 "Adjust taste as needed" ]
  /\ List.length (steps r) = 3%nat
  /\ estimated_time r = 20%Z
  /\ difficulty r = "easy"
  /\ tips r = Some "This is a basic combination of your ingredients"
  /\ servings r = 4%Z.
Proof.
  intros H r. unfold r, fallback_rule_based_recipe. rewrite H.
  repeat split.
Qed.

(** C7 at the request whose ingredient list is empty: the first
    [ingredients[0]] is an [IndexError]. *)
Lemma fallback_last_resort_witness :
  fallback_body (request_for []) = Raise IndexError
  /\ fallback_rule_based_recipe (request_for [])
     = absolute_fallback.
Proof.
  split; [reflexivity|].
  exact (proj1 (fallback_last_resort (request_for []) IndexError eq_refl)).
Defined.

(** C10.  The membership test of the classification compares whole
    strings: an ingredient triggers a bucket only when it is equal to a
    keyword.  A request none of whose ingredients is a keyword gets the
    stir-fry template, as do "fried rice" and "chicken breast". *)
Theorem fallback_matches_whole_strings :
  (forall ings keyword, contains ings keyword = true <-> In keyword ings)
  /\ (forall first rest dietary cuisine level,
        (forall x, In x (first :: rest) ->
                   ~ In x grains /\ ~ In x proteins) ->
        fallback_rule_based_recipe
          (mkRequest (first :: rest) dietary cuisine level)
        = vegetable_stir_fry)
  /\ recipe_type ["fried rice"] = "vegetable_stir_fry"
  /\ recipe_type ["chicken breast"] = "vegetable_stir_fry"
  /\ fallback_rule_based_recipe
       (request_for ["fried rice"; "chicken breast"])
     = vegetable_stir_fry.
Proof.
  split; [exact contains_In|].
  split; [|repeat split; reflexivity].
  intros first rest dietary cuisine level H.
  rewrite fallback_cons.
  assert (Hg : existsb (fun k => contains (first :: rest) k) grains = false).
  { apply no_keyword. intros x Hx. apply (H x Hx). }
  assert (Hp : existsb (fun k => contains (first :: rest) k) proteins = false).
  { apply no_keyword. intros x Hx. apply (H x Hx). }
  now rewrite Hg, Hp.
Qed.

(** C10 at a request for brown rice alone. *)
Lemma fallback_matches_whole_strings_witness :
  fallback_rule_based_recipe (request_for ["brown rice"])
  = vegetable_stir_fry.
Proof.
  apply (proj1 (proj2 fallback_matches_whole_strings)
           "brown rice" [] (Some []) None None).
  intros x [<-|[]]. split; simpl; intuition discriminate.
Defined.

(* ================================================================= *)
(** * Further properties of the code *)

Import PyExtra Detectors Validators UploadEndpoint RecipeHistory.
Import FurtherVocabulary.

(* ================================================================= *)
(** ** Normal forms of [lower] and [strip] *)

Section StringNormalForms.

Lemma lower_ascii_idempotent (c : ascii) :
  lower_ascii (lower_ascii c) = lower_ascii c.
Proof. destruct c as [[] [] [] [] [] [] [] []]; reflexivity. Qed.

Lemma is_space_lower_ascii (c : ascii) :
  is_space (lower_ascii c) = is_space c.
Proof. destruct c as [[] [] [] [] [] [] [] []]; reflexivity. Qed.

Lemma lower_idempotent (s : string) : lower (lower s) = lower s.
Proof.
  induction s as [|c s IH]; simpl; [reflexivity|].
  now rewrite lower_ascii_idempotent, IH.
Qed.

Lemma lower_length (s : string) : String.length (lower s) = String.length s.
Proof. induction s as [|c s IH]; simpl; congruence. Qed.

Lemma lstrip_lower (s : string) : lstrip (lower s) = lower (lstrip s).
Proof.
  induction s as [|c s IH]; simpl; [reflexivity|].
  rewrite is_space_lower_ascii. now destruct (is_space c).
Qed.

Lemma rstrip_lower (s : string) : rstrip (lower s) = lower (rstrip s).
Proof.
  induction s as [|c s IH]; simpl; [reflexivity|].
  rewrite IH, is_space_lower_ascii.
  destruct (rstrip s); simpl; [now destruct (is_space c)|reflexivity].
Qed.

Lemma strip_lower (s : string) : strip (lower s) = lower (strip s).
Proof. unfold strip. now rewrite lstrip_lower, rstrip_lower. Qed.

Lemma lstrip_idempotent (s : string) : lstrip (lstrip s) = lstrip s.
Proof.
  induction s as [|c s IH]; simpl; [reflexivity|].
  destruct (is_space c) eqn:E; [exact IH|]. simpl. now rewrite E.
Qed.

Lemma rstrip_idempotent (s : string) : rstrip (rstrip s) = rstrip s.
Proof.
  induction s as [|c s IH]; simpl; [reflexivity|].
  destruct (rstrip s) as [|c' r] eqn:E.
  - destruct (is_space c) eqn:Ec; simpl; [reflexivity|]. now rewrite Ec.
  - change (rstrip (String c (String c' r))) with
      (match rstrip (String c' r) with
       | EmptyString =>
           if is_space c then EmptyString else String c EmptyString
       | String a b => String c (String a b)
       end).
    now rewrite IH.
Qed.

(** [rstrip] does not touch a first character that is not a space. *)
Lemma lstrip_rstrip (s : string) :
  lstrip s = s -> lstrip (rstrip s) = rstrip s.
Proof.
  destruct s as [|c s]; [reflexivity|]. simpl.
  destruct (is_space c) eqn:E.
  - intros H. exfalso.
    assert (L : forall t, (String.length (lstrip t) <= String.length t)%nat).
    { induction t as [|a t IH]; simpl; [lia|].
      destruct (is_space a); simpl; lia. }
    specialize (L s). rewrite H in L. simpl in L. lia.
  - intros _. destruct (rstrip s); simpl; now rewrite E.
Qed.

Lemma strip_idempotent (s : string) : strip (strip s) = strip s.
Proof.
  unfold strip.
  rewrite (lstrip_rstrip (lstrip s) (lstrip_idempotent s)).
  apply rstrip_idempotent.
Qed.

(** The cleaned form [x.strip().lower()] is a fixed point of both. *)
Lemma clean_lower (s : string) : lower (lower (strip s)) = lower (strip s).
Proof. apply lower_idempotent. Qed.

Lemma clean_strip (s : string) : strip (lower (strip s)) = lower (strip s).
Proof. now rewrite strip_lower, strip_idempotent. Qed.

Lemma truthy_nonempty (s : string) : truthy s = true <-> s <> EmptyString.
Proof. destruct s; simpl; split; congruence. Qed.

End StringNormalForms.

(* ================================================================= *)
(** ** The detectors *)

Section DetectorOutput.

Lemma readings_entries (c : float) (l : list string) :
  Forall (fun n => lower n = n) l ->
  readings (map (fun n => openai_entry n c) l)
  = Some (map (fun n => (n, c)) l).
Proof.
  induction 1 as [|n l Hn Hl IH]; simpl; [reflexivity|].
  rewrite IH. unfold read. simpl. now rewrite Hn.
Qed.

Lemma names_entries (c : float) (l : list string) :
  Forall (fun n => lower n = n) l ->
  names (map (fun n => openai_entry n c) l) = l.
Proof.
  intros H. rewrite (readings_names _ _ (readings_entries c l H)).
  rewrite map_map. simpl. apply map_id.
Qed.

Lemma detect_openai_kept (response : result string) :
  detect_openai_ingredients response
  = map (fun n => openai_entry n 0.85%float) (kept_names response).
Proof. now destruct response. Qed.

Lemma kept_names_clean (response : result string) :
  Forall (fun n => n <> EmptyString /\ lower n = n /\ strip n = n)
         (kept_names response).
Proof.
  rewrite Forall_forall. intros n H.
  destruct response as [content|e]; simpl in H; [|destruct H].
  apply filter_In in H. destruct H as [H T].
  apply in_map_iff in H. destruct H as (piece & <- & _).
  split; [now apply truthy_nonempty|].
  split; [apply clean_lower|apply clean_strip].
Qed.

Lemma kept_names_lower (response : result string) :
  Forall (fun n => lower n = n) (kept_names response).
Proof.
  eapply Forall_impl; [|apply kept_names_clean]. simpl. tauto.
Qed.

Lemma detect_openai_readings (response : result string) :
  readings (detect_openai_ingredients response)
  = Some (map (fun n => (n, 0.85%float)) (kept_names response)).
Proof.
  rewrite detect_openai_kept. apply readings_entries, kept_names_lower.
Qed.

End DetectorOutput.

(** X1.  Whatever the vision service answers, the records of
    [detect_openai_ingredients] are well-formed for the merger: each
    has a name and the confidence 0.85, the names are not empty and are
    already trimmed and lowercased, so the merger reads them as they
    are.  An exception on the way gives no record. *)
Theorem detect_openai_records (response : result string) :
  exists l,
    detect_openai_ingredients response
    = map (fun n => openai_entry n 0.85%float) l
    /\ readings (detect_openai_ingredients response)
       = Some (map (fun n => (n, 0.85%float)) l)
    /\ Forall (fun n => n <> EmptyString /\ lower n = n /\ strip n = n) l
    /\ (forall e, response = Raise e -> l = []).
Proof.
  exists (kept_names response).
  rewrite detect_openai_kept.
  split; [reflexivity|]. split; [|split].
  - rewrite <- detect_openai_kept. apply detect_openai_readings.
  - apply kept_names_clean.
  - now intros e ->.
Qed.

Lemma mock_readings (image_path : string) :
  readings (detect_local_ingredients image_path)
  = Some [("tomato", 0.92%float); ("onion", 0.87%float);
          ("garlic", 0.75%float)].
Proof. reflexivity. Qed.

(** X2.  On the outputs of the repository's two detectors the body of
    the merger never raises: the handler that returns the empty list is
    not reached, whatever the vision service answers. *)
Theorem merge_of_detectors_never_raises (image_path : string)
    (response : result string) :
  merge_body (detect_local_ingredients image_path)
             (detect_openai_ingredients response)
  = Ok (merge_detection_results (detect_local_ingredients image_path)
          (detect_openai_ingredients response)).
Proof.
  pose proof (detect_openai_readings response) as R.
  pose proof (collect_spec (detect_local_ingredients image_path)
                (detect_openai_ingredients response)) as C.
  rewrite (mock_readings image_path), R in C.
  unfold merge_detection_results, merge_body. now rewrite C.
Qed.

(* ================================================================= *)
(** ** The threshold on the detectors' confidences *)

Section Reachable.

Ltac pick := repeat first [left; reflexivity | right].

Lemma reachable_closed : Forall (fun c => In (boost c) reachable) reachable.
Proof.
  unfold reachable.
  repeat (apply Forall_cons; [vm_compute; pick|]). apply Forall_nil.
Qed.

Lemma reachable_above : Forall (fun c => (0.3 <? c)%float = true) reachable.
Proof.
  unfold reachable.
  repeat (apply Forall_cons; [vm_compute; reflexivity|]). apply Forall_nil.
Qed.

Lemma fold_see_complete (l seen : list string) (k : string) :
  In k l \/ In k seen -> In k (fold_left see l seen).
Proof.
  revert seen. induction l as [|n l IH]; simpl; intros seen H; [tauto|].
  apply IH. destruct H as [[->|H]|H]; [right| now left |right].
  - unfold see. destruct (contains seen k) eqn:E.
    + now apply contains_In.
    + apply in_or_app. right. now left.
  - unfold see. destruct (contains seen n); [exact H|].
    apply in_or_app. now left.
Qed.

Lemma filter_all {A : Type} (f : A -> bool) (l : list A) :
  (forall x, In x l -> f x = true) -> filter f l = l.
Proof.
  induction l as [|x l IH]; simpl; intros H; [reflexivity|].
  rewrite (H x (or_introl eq_refl)). f_equal. apply IH. auto.
Qed.

(** Along the remote loop on records of confidence 0.85 every stored
    confidence stays among the reachable ones. *)
Lemma remote_loop_reachable (l : list string) :
  forall d,
    (forall v, In v (values d) -> In (confidence v) reachable) ->
    forall v,
      In v (values (fold_left put_openai
                      (map (fun n => (n, 0.85%float)) l) d)) ->
      In (confidence v) reachable.
Proof.
  induction l as [|n l IH]; intros d Hd; [exact Hd|].
  cbn [map fold_left]. apply IH. intros v H.
  unfold put_openai in H. cbn [fst snd] in H.
  destruct (lookup d n) as [old|] eqn:E;
    apply setitem_values in H; destruct H as [->|H]; try (now apply Hd);
    cbn [confidence].
  - assert (O : In (confidence old) reachable).
    { apply Hd. apply values_In. exists n. now apply lookup_In. }
    pose proof reachable_closed as C. rewrite Forall_forall in C.
    exact (C _ O).
  - vm_compute. pick.
Qed.

Lemma detectors_dict_reachable (image_path : string) (l : list string)
    (v : Score) :
  In v (values (dict_of [("tomato", 0.92%float); ("onion", 0.87%float);
                         ("garlic", 0.75%float)]
                  (map (fun n => (n, 0.85%float)) l))) ->
  In (confidence v) reachable.
Proof.
  unfold dict_of. apply remote_loop_reachable.
  intros w [<-|[<-|[<-|[]]]]; vm_compute; pick.
Qed.

End Reachable.

(** X3.  With the repository's two detectors the threshold of 0.3 never
    removes a record: the merged list has exactly one record for each
    name that either detector reports, and tomato, onion and garlic,
    the names of the local detector, are always among them. *)
Theorem merge_of_detectors_keeps_every_name (image_path : string)
    (response : result string) :
  let local_results := detect_local_ingredients image_path in
  let openai_results := detect_openai_ingredients response in
  let merged := merge_detection_results local_results openai_results in
  Permutation (map name merged) (first_seen local_results openai_results)
  /\ (forall n, In n (map name merged)
                <-> In n (names local_results ++ names openai_results))
  /\ (In "tomato" (map name merged) /\ In "onion" (map name merged)
      /\ In "garlic" (map name merged)).
Proof.
  intros L R merged.
  pose proof (detect_openai_readings response) as Rl.
  assert (P : Permutation (map name merged) (first_seen L R)).
  { unfold merged.
    rewrite (merge_read L R _ _ (mock_readings image_path) Rl).
    rewrite filter_all.
    - rewrite <- sort_desc_perm.
      rewrite (values_names _ (dict_of_well_keyed _ _)), keys_dict_of.
      unfold first_seen, L, R.
      now rewrite (readings_names _ _ (mock_readings image_path)),
        (readings_names _ _ Rl).
    - intros v Hv. apply (detectors_dict_reachable image_path) in Hv.
      pose proof reachable_above as A. rewrite Forall_forall in A.
      exact (A _ Hv). }
  assert (I : forall n, In n (map name merged) <-> In n (names L ++ names R)).
  { intros n. split; intros H.
    - apply (Permutation_in _ P) in H. unfold first_seen in H.
      apply fold_see_In in H. now destruct H as [H|[]].
    - apply (Permutation_in _ (Permutation_sym P)). unfold first_seen.
      apply fold_see_complete. now left. }
  split; [exact P|]. split; [exact I|].
  repeat split; apply I; apply in_or_app; left; simpl; tauto.
Qed.

(* ================================================================= *)
(** ** The cap of the agreement branch *)

Section Cap.

Lemma min2_capped (x : float) : (1.0 <? min2 x 1.0)%float = false.
Proof.
  unfold min2. destruct (1.0 <? x)%float eqn:E; [reflexivity|exact E].
Qed.

Lemma one_not_nan : not_nan 1.0%float.
Proof.
  apply (FloatOrder.ltb_not_nan 0.3%float 1.0%float). reflexivity.
Qed.

Lemma dict_of_single_or_capped (pl pr : list (string * float)) (v : Score) :
  In v (values (dict_of pl pr)) -> single_or_capped v.
Proof.
  unfold dict_of. revert v.
  apply (fold_values single_or_capped put_openai).
  - intros d p Hd v H. unfold put_openai in H.
    destruct (lookup d (fst p)) as [old|];
      apply setitem_values in H; destruct H as [->|H]; auto;
      unfold single_or_capped; simpl.
    + right; right. apply min2_capped.
    + right; left. reflexivity.
  - apply (fold_values single_or_capped put_local).
    + intros d p Hd v H. apply setitem_values in H.
      destruct H as [->|H]; auto. left. reflexivity.
    + intros v [].
Qed.

End Cap.

(** X4.  A merged record with two or more sources never has a
    confidence above 1.0, whatever the input confidences are.  The cap
    belongs to the agreement branch only: a lone local detection of 2.0
    is returned with 1.2. *)
Theorem merge_agreement_is_capped :
  (forall local_results openai_results m,
      In m (merge_detection_results local_results openai_results) ->
      (2 <= List.length (sources m))%nat ->
      (confidence m <=? 1.0)%float = true)
  /\ merge_detection_results [local_entry "okra" 2.0%float] []
     = [mkScore "okra" 1.2%float ["local_ml"]].
Proof.
  split; [|vm_compute; reflexivity].
  intros L R m H Hs.
  pose proof (merge_comparable L R) as C. rewrite Forall_forall in C.
  specialize (C m H).
  destruct (readings L) as [pl|] eqn:HL;
    [destruct (readings R) as [pr|] eqn:HR|];
    try (rewrite merge_unread in H by auto; destruct H).
  rewrite (merge_read L R pl pr HL HR), sort_desc_In, filter_In in H.
  destruct H as [H _]. apply dict_of_single_or_capped in H.
  destruct H as [H|[H|H]]; try (rewrite H in Hs; simpl in Hs; lia).
  apply FloatOrder.not_ltb_leb; [exact one_not_nan|exact C|exact H].
Qed.

(** X4 at tomato seen by both detectors with confidence 0.99. *)
Lemma merge_agreement_is_capped_witness :
  (confidence (mkScore "tomato" 1.0%float ["local_ml"; "openai_vision"])
   <=? 1.0)%float = true.
Proof.
  apply (proj1 merge_agreement_is_capped
           [local_entry "tomato" 0.99%float]
           [openai_entry "tomato" 0.99%float]).
  - left. vm_compute. reflexivity.
  - simpl. lia.
Defined.

(* ================================================================= *)
(** ** The deduplication of the upload route *)

Section Dedup.

Lemma leb_not_ltb (x y : float) :
  (y <=? x)%float = true -> (x <? y)%float = false.
Proof.
  rewrite ltb_spec, leb_spec. unfold SFltb, SFleb.
  rewrite (FloatOrder.SFcompare_antisym (Prim2SF y) (Prim2SF x)).
  destruct (SFcompare (Prim2SF y) (Prim2SF x)) as [[]|]; simpl; congruence.
Qed.

Lemma ge_refl (x : Score) : comparable x -> ge x x.
Proof.
  intros C. unfold ge.
  destruct (confidence x <? confidence x)%float eqn:E.
  - now apply FloatOrder.ltb_leb.
  - now apply FloatOrder.not_ltb_leb.
Qed.

Lemma ge_trans (x y z : Score) : ge x y -> ge y z -> ge x z.
Proof. unfold ge. intros A B. eapply FloatOrder.leb_trans; eauto. Qed.

(** Merged names are already lowercased. *)
Lemma merge_name_lower (local_results openai_results : list pydict)
    (m : Score) :
  In m (merge_detection_results local_results openai_results) ->
  lower (name m) = name m.
Proof.
  intros H. apply merge_name_seen in H. unfold first_seen in H.
  apply fold_see_In in H. destruct H as [H|[]].
  apply in_app_or in H.
  destruct H as [H|H]; apply names_In in H;
    destruct H as (e & s & _ & _ & ->); apply lower_idempotent.
Qed.

Lemma all_ingredients_In (detections : list (list pydict * list pydict))
    (x : Score) :
  In x (all_ingredients detections) ->
  lower (name x) = name x /\ comparable x.
Proof.
  unfold all_ingredients. rewrite in_flat_map. intros (d & _ & H). split.
  - now apply (merge_name_lower (fst d) (snd d)).
  - pose proof (merge_comparable (fst d) (snd d)) as C.
    rewrite Forall_forall in C. now apply C.
Qed.

Lemma unique_step_keys (d : scores) (x : Score) :
  NoDup (map fst d) -> NoDup (map fst (unique_step d x)).
Proof.
  intros N. unfold unique_step.
  destruct (lookup d (lower (name x))) as [seen|];
    [destruct (gt (confidence x) (confidence seen))|];
    try exact N; rewrite keys_setitem; now apply see_NoDup.
Qed.

Lemma unique_step_well_keyed (d : scores) (x : Score) :
  lower (name x) = name x -> well_keyed d -> well_keyed (unique_step d x).
Proof.
  intros Nx W. unfold unique_step.
  destruct (lookup d (lower (name x))) as [seen|];
    [destruct (gt (confidence x) (confidence seen))|];
    try exact W; now apply setitem_well_keyed.
Qed.

Lemma unique_fold_shape (all : list Score) :
  (forall x, In x all -> lower (name x) = name x) ->
  forall d, NoDup (map fst d) -> well_keyed d ->
  NoDup (map fst (fold_left unique_step all d))
  /\ well_keyed (fold_left unique_step all d).
Proof.
  induction all as [|x all IH]; simpl; intros N d Nd W; [tauto|].
  apply IH; [auto|now apply unique_step_keys|].
  apply unique_step_well_keyed; auto.
Qed.

Lemma unique_step_new (d : scores) (x : Score) :
  lower (name x) = name x -> comparable x ->
  (forall v, In v (values d) -> comparable v) ->
  best (unique_step d x) x.
Proof.
  intros Nx Cx Cd. unfold unique_step, best. rewrite Nx.
  destruct (lookup d (name x)) as [seen|] eqn:E.
  - unfold gt. destruct (confidence seen <? confidence x)%float eqn:L.
    + exists x. rewrite lookup_setitem, String.eqb_refl.
      split; [reflexivity|now apply ge_refl].
    + exists seen. split; [exact E|].
      apply FloatOrder.not_ltb_leb; [|exact Cx|exact L].
      apply Cd. apply values_In. exists (name x). now apply lookup_In.
  - exists x. rewrite lookup_setitem, String.eqb_refl.
    split; [reflexivity|now apply ge_refl].
Qed.

Lemma unique_step_keeps (d : scores) (x y : Score) :
  lower (name y) = name y -> best d x -> best (unique_step d y) x.
Proof.
  intros Ny (v & Hv & G). unfold unique_step, best. rewrite Ny.
  destruct (String.eqb (name y) (name x)) eqn:K.
  - apply String.eqb_eq in K. rewrite K, Hv. unfold gt.
    destruct (confidence v <? confidence y)%float eqn:L.
    + exists y. rewrite lookup_setitem, String.eqb_refl.
      split; [reflexivity|].
      apply ge_trans with v; [|exact G].
      now apply FloatOrder.ltb_leb.
    + eauto.
  - assert (U : forall w, lookup (setitem d (name y) w) (name x)
                          = lookup d (name x))
      by (intros w; now rewrite lookup_setitem, K).
    destruct (lookup d (name y)) as [seen|];
      [destruct (gt (confidence y) (confidence seen))|];
      try rewrite U; eauto.
Qed.

Lemma unique_step_comparable (d : scores) (x : Score) :
  comparable x ->
  (forall v, In v (values d) -> comparable v) ->
  forall v, In v (values (unique_step d x)) -> comparable v.
Proof.
  intros Cx Cd v H. apply unique_step_values in H.
  destruct H as [->|H]; auto.
Qed.

Lemma unique_fold_best (all : list Score) :
  (forall x, In x all -> lower (name x) = name x /\ comparable x) ->
  forall d, (forall v, In v (values d) -> comparable v) ->
  forall x, In x all \/ best d x ->
            best (fold_left unique_step all d) x.
Proof.
  induction all as [|y all IH]; simpl; intros A d Cd x H.
  - now destruct H.
  - destruct (A y (or_introl eq_refl)) as [Ny Cy].
    apply IH; [auto|now apply unique_step_comparable|].
    destruct H as [[->|H]|H]; [right|now left|right].
    + now apply unique_step_new.
    + now apply unique_step_keeps.
Qed.

Lemma firstn_NoDup {A : Type} (n : nat) (l : list A) :
  NoDup l -> NoDup (firstn n l).
Proof.
  intros N. rewrite <- (firstn_skipn n l) in N.
  now apply NoDup_app_remove_r in N.
Qed.

Lemma final_names_NoDup (detections : list (list pydict * list pydict)) :
  NoDup (map name (final_ingredients detections)).
Proof.
  unfold final_ingredients, unique_ingredients.
  destruct (unique_fold_shape (all_ingredients detections)
              (fun x H => proj1 (all_ingredients_In detections x H))
              [] (NoDup_nil _) (fun k v (H : In (k, v) []) => match H with end))
    as [N W].
  eapply Permutation_NoDup.
  - apply Permutation_map, sort_desc_perm.
  - now rewrite (values_names _ W).
Qed.

End Dedup.

(** X5.  The upload response never lists a name twice: the ranked list
    and the returned first 20 hold at most one record per name, and
    every name is in lowercase form. *)
Theorem upload_names_are_unique
    (detections : list (list pydict * list pydict)) :
  NoDup (map name (final_ingredients detections))
  /\ NoDup (map name (upload_images detections))
  /\ (forall m, In m (upload_images detections) ->
                lower (name m) = name m).
Proof.
  pose proof (final_names_NoDup detections) as N.
  split; [exact N|]. split.
  - unfold upload_images. rewrite <- firstn_map. now apply firstn_NoDup.
  - intros m H. apply In_firstn in H. apply final_In in H.
    destruct H as (d & _ & H). now apply (merge_name_lower (fst d) (snd d)).
Qed.

(** X6.  Across the images of one upload the ranked list keeps, for
    every name that some image's merge produced, a record of that name
    whose confidence is at least that of every merged record of the
    name. *)
Theorem upload_keeps_best_per_name
    (detections : list (list pydict * list pydict)) (x : Score) :
  In x (all_ingredients detections) ->
  exists m,
    In m (final_ingredients detections)
    /\ name m = name x
    /\ (confidence x <=? confidence m)%float = true
    /\ In m (all_ingredients detections).
Proof.
  intros H.
  destruct (unique_fold_best (all_ingredients detections)
              (all_ingredients_In detections) []
              (fun v (F : In v (values [])) => match F with end)
              x (or_introl H)) as (m & L & G).
  apply lookup_In in L.
  assert (V : In m (values (fold_left unique_step
                              (all_ingredients detections) []))).
  { apply values_In. eauto. }
  exists m.
  destruct (unique_fold_shape (all_ingredients detections)
              (fun y Hy => proj1 (all_ingredients_In detections y Hy))
              [] (NoDup_nil _) (fun k v (F : In (k, v) []) => match F with end))
    as [_ W].
  split; [|split; [|split]].
  - unfold final_ingredients, unique_ingredients. now apply sort_desc_In.
  - exact (W _ _ L).
  - exact G.
  - apply unique_values in V. now destruct V as [V|[]].
Qed.

(** X6 at two images that both show a tomato: the second image, where
    both detectors agree, gives the higher confidence. *)
Lemma upload_keeps_best_per_name_witness :
  exists m,
    In m (final_ingredients
            [([local_entry "tomato" 0.9%float], []);
             ([local_entry "tomato" 0.9%float],
              [openai_entry "tomato" 0.85%float])])
    /\ name m = "tomato"
    /\ (0.9 * 0.6 <=? confidence m)%float = true.
Proof.
  destruct (upload_keeps_best_per_name
              [([local_entry "tomato" 0.9%float], []);
               ([local_entry "tomato" 0.9%float],
                [openai_entry "tomato" 0.85%float])]
              (mkScore "tomato" (0.9 * 0.6)%float ["local_ml"]))
    as (m & A & B & C & _).
  - left. vm_compute. reflexivity.
  - exists m. auto.
Defined.

(* ================================================================= *)
(** ** One image: the route adds nothing to the merge *)

Section OneImage.

Lemma setitem_absent (d : scores) (k : string) (v : Score) :
  lookup d k = None -> setitem d k v = d ++ [(k, v)].
Proof.
  induction d as [|[k0 v0] d IH]; simpl; [reflexivity|].
  destruct (String.eqb k0 k); [discriminate|].
  intros H. now rewrite IH.
Qed.

Lemma unique_fold_fresh (l : list Score) :
  NoDup (map name l) ->
  (forall x, In x l -> lower (name x) = name x) ->
  forall d,
    (forall x, In x l -> ~ In (name x) (map fst d)) ->
    fold_left unique_step l d = d ++ map (fun x => (name x, x)) l.
Proof.
  induction l as [|x l IH]; simpl; intros N L d F.
  - now rewrite app_nil_r.
  - inversion N as [|? ? Nx Nl]; subst.
    assert (E : unique_step d x = d ++ [(name x, x)]).
    { unfold unique_step. rewrite (L x (or_introl eq_refl)).
      assert (A : lookup d (name x) = None)
        by (apply lookup_None; auto).
      rewrite A. now apply setitem_absent. }
    rewrite E, IH; auto.
    + now rewrite <- app_assoc.
    + intros y Hy. rewrite map_app, in_app_iff. simpl.
      intros [H|[H|[]]].
      * exact (F y (or_intror Hy) H).
      * apply Nx. rewrite H. now apply in_map.
Qed.

Lemma sort_desc_sorted_id (l : list Score) :
  StronglySorted ge l -> sort_desc l = l.
Proof.
  induction 1 as [|x l S IH F]; simpl; [reflexivity|].
  rewrite IH. destruct l as [|y l]; simpl; [reflexivity|].
  inversion F as [|? ? G _]; subst.
  now rewrite (leb_not_ltb _ _ G).
Qed.

End OneImage.

(** X7.  For an upload of one image the deduplication and the second
    sort of the route change nothing: the ranked list is the merged
    list of that image, and the response holds its first 20 records. *)
Theorem upload_of_one_image (local_results openai_results : list pydict) :
  final_ingredients [(local_results, openai_results)]
  = merge_detection_results local_results openai_results
  /\ upload_images [(local_results, openai_results)]
     = firstn 20 (merge_detection_results local_results openai_results).
Proof.
  assert (E : final_ingredients [(local_results, openai_results)]
              = merge_detection_results local_results openai_results).
  { unfold final_ingredients, unique_ingredients, all_ingredients.
    simpl. rewrite app_nil_r.
    rewrite unique_fold_fresh.
    - simpl. unfold values. rewrite map_map. simpl. rewrite map_id.
      apply sort_desc_sorted_id, merge_sorted.
    - apply merge_names_NoDup.
    - intros x. apply merge_name_lower.
    - intros x _ []. }
  split; [exact E|]. unfold upload_images. now rewrite E.
Qed.

(* ================================================================= *)
(** ** The extension of a file name *)

Section Extension.

Variable c : ascii.

Lemma split_free (s : string) : free_of c s -> split c s = [s].
Proof.
  induction s as [|a s IH]; simpl; [reflexivity|].
  intros [Ha Hs]. rewrite (proj2 (Ascii.eqb_neq a c) Ha).
  now rewrite (IH Hs).
Qed.

(** A string that contains the separator splits into two pieces or
    more, and the last piece is what follows the last separator. *)
Lemma split_after_last (base ext : string) :
  free_of c ext ->
  exists p q r,
    split c (base ++ String c ext) = p :: q :: r
    /\ last_item (p :: q :: r) = Ok ext.
Proof.
  intros F. induction base as [|a b IH]; simpl.
  - rewrite Ascii.eqb_refl, (split_free ext F).
    exists EmptyString, ext, []. auto.
  - destruct IH as (p & q & r & E & L). rewrite E.
    destruct (Ascii.eqb a c).
    + exists EmptyString, p, (q :: r). auto.
    + exists (String a p), q, r. auto.
Qed.

(** The shape of a split: one piece, the string itself, when the
    separator does not occur; otherwise the last piece is free of the
    separator and is preceded by it in the string. *)
Lemma split_shape (s : string) :
  match split c s with
  | [] => False
  | [p] => p = s /\ free_of c s
  | pieces =>
      exists base ext,
        last_item pieces = Ok ext /\ free_of c ext
        /\ s = (base ++ String c ext)%string
  end.
Proof.
  induction s as [|a s IH]; simpl; [auto|].
  destruct (Ascii.eqb a c) eqn:E.
  - apply Ascii.eqb_eq in E. subst a.
    destruct (split c s) as [|p [|q r]]; [destruct IH| |].
    + destruct IH as [-> F]. exists EmptyString, s. auto.
    + destruct IH as (base & ext & L & F & ->).
      exists (String c base), ext. auto.
  - apply Ascii.eqb_neq in E.
    destruct (split c s) as [|p [|q r]]; [destruct IH| |].
    + destruct IH as [-> F]. simpl. auto.
    + destruct IH as (base & ext & L & F & ->).
      exists (String a base), ext. auto.
Qed.

Lemma last_split (s ext : string) :
  last_item (split c s) = Ok ext ->
  free_of c ext
  /\ (s = ext \/ exists base, s = (base ++ String c ext)%string).
Proof.
  pose proof (split_shape s) as S.
  destruct (split c s) as [|p [|q r]]; [destruct S| |].
  - destruct S as [-> F]. simpl. intros [= <-]. auto.
  - destruct S as (base & e & L & F & ->). rewrite L.
    intros [= <-]. eauto.
Qed.

End Extension.

Lemma file_extension_after_dot (base ext : string) :
  free_of "."%char ext ->
  file_extension (base ++ String "."%char ext) = Ok (lower ext).
Proof.
  intros F. unfold file_extension.
  destruct (split_after_last "."%char base ext F) as (p & q & r & E & L).
  now rewrite E, L.
Qed.

Lemma file_extension_no_dot (name : string) :
  free_of "."%char name -> file_extension name = Ok (lower name).
Proof.
  intros F. unfold file_extension. now rewrite (split_free _ _ F).
Qed.

Lemma file_extension_inv (name e : string) :
  file_extension name = Ok e ->
  exists ext,
    e = lower ext /\ free_of "."%char ext
    /\ (name = ext \/ exists base, name = (base ++ String "."%char ext)%string).
Proof.
  unfold file_extension.
  destruct (last_item (split "."%char name)) as [ext|x] eqn:L;
    simpl; [|discriminate].
  intros [= <-]. exists ext. split; [reflexivity|].
  now apply last_split.
Qed.

(** X8.  [validate_image_file] accepts a file exactly when it has a
    non-empty name, a size it can read of at most 10485760 bytes, one of
    the four image content types, and the text after the last dot of the
    name -- the whole name when it has no dot -- is, in any case of
    letters, jpg, jpeg, png or webp.  Only that last piece of the name
    counts, so a name such as shell.php.JPG is accepted. *)
Theorem validate_image_file_accepts (f : UploadFile) :
  (validate_image_file f = true
   <-> exists name ext sz t,
         filename f = Some name /\ name <> EmptyString
         /\ free_of "."%char ext
         /\ (name = ext
             \/ exists base, name = (base ++ String "."%char ext)%string)
         /\ In (lower ext) ["jpg"; "jpeg"; "png"; "webp"]
         /\ size f = Ok sz /\ (sz <= 10485760)%Z
         /\ content_type f = Some t
         /\ In t ["image/jpeg"; "image/jpg"; "image/png"; "image/webp"])
  /\ validate_image_file
       (mkUploadFile (Some "shell.php.JPG") (Ok 10485760%Z)
          (Some "image/png")) = true
  /\ validate_image_file
       (mkUploadFile (Some "a.png") (Ok 10485761%Z) (Some "image/png"))
     = false.
Proof.
  split; [|split; reflexivity].
  unfold validate_image_file, validate_image_file_body.
  destruct f as [fn sz ct]. cbn [filename size content_type]. split.
  - destruct fn as [name|]; [|discriminate].
    destruct (truthy name) eqn:T; cbn [negb]; [|discriminate].
    destruct (file_extension name) as [e|x] eqn:E; cbn [bind];
      [|discriminate].
    destruct (contains ALLOWED_EXTENSIONS e) eqn:A; cbn [negb];
      [|discriminate].
    destruct sz as [n|x]; cbn [bind]; [|discriminate].
    destruct (MAX_UPLOAD_SIZE <? n)%Z eqn:M; [discriminate|].
    destruct ct as [t|]; [|discriminate].
    destruct (contains allowed_content_types t) eqn:C; cbn [negb];
      [|discriminate].
    intros _. destruct (file_extension_inv _ _ E) as (ext & -> & F & S).
    exists name, ext, n, t.
    apply truthy_nonempty in T. apply contains_In in A, C.
    apply Z.ltb_ge in M. unfold MAX_UPLOAD_SIZE in M.
    repeat split; auto.
  - intros (name & ext & n & t & -> & T & F & S & A & -> & M & -> & C).
    apply truthy_nonempty in T. rewrite T. cbn [negb].
    assert (E : file_extension name = Ok (lower ext)).
    { destruct S as [->|(base & ->)];
        [now apply file_extension_no_dot|now apply file_extension_after_dot]. }
    rewrite E. cbn [bind].
    apply (contains_In ALLOWED_EXTENSIONS) in A. rewrite A. cbn [negb bind].
    assert (L : (MAX_UPLOAD_SIZE <? n)%Z = false)
      by (apply Z.ltb_ge; exact M).
    rewrite L.
    apply (contains_In allowed_content_types) in C. now rewrite C.
Qed.

(* ================================================================= *)
(** ** The upload endpoint *)

Section Endpoint.

Lemma save_files_all (files : list Upload) :
  save_files files = Ok None <-> Forall accepted files.
Proof.
  induction files as [|u files IH]; simpl.
  - split; [constructor|reflexivity].
  - destruct (validate_image_file (file u)) eqn:V; simpl.
    + destruct (written u) as [[]|x] eqn:W; simpl.
      * rewrite IH. split.
        -- intros H. constructor; [split; assumption|exact H].
        -- intros H. now inversion H.
      * split; [discriminate|].
        intros H. inversion H as [|? ? [_ A] _]. congruence.
    + split; [discriminate|].
      intros H. inversion H as [|? ? [A _] _]. congruence.
Qed.

Lemma save_files_invalid (files : list Upload) (detail : string) :
  save_files files = Ok (Some detail) ->
  exists u, In u files /\ validate_image_file (file u) = false
            /\ detail = invalid_detail (file u).
Proof.
  induction files as [|u files IH]; simpl; [discriminate|].
  destruct (validate_image_file (file u)) eqn:V; simpl.
  - destruct (written u) as [[]|x]; simpl; [|discriminate].
    intros H. destruct (IH H) as (w & Hw & R). eauto.
  - intros [= <-]. eauto.
Qed.

End Endpoint.

(** X9.  The upload endpoint answers with ingredients exactly when at
    most five files are sent and every one of them is valid and could
    be written; the list then has at most 20 records.  More than five
    files are refused before any file is looked at, and a 400 answer
    otherwise names a file that [validate_image_file] rejects. *)
Theorem upload_endpoint_answers (files : list Upload) :
  (forall l,
      upload_endpoint files = Success l
      <-> (List.length files <= 5)%nat /\ Forall accepted files
          /\ l = upload_images (detections files))
  /\ (forall l, upload_endpoint files = Success l ->
                (List.length l <= 20)%nat)
  /\ ((5 < List.length files)%nat ->
      upload_endpoint files = BadRequest "Maximum 5 images allowed")
  /\ (forall detail,
        upload_endpoint files = BadRequest detail ->
        (5 < List.length files)%nat
        \/ exists u, In u files /\ validate_image_file (file u) = false
                     /\ detail = invalid_detail (file u)).
Proof.
  unfold upload_endpoint.
  destruct (5 <? List.length files)%nat eqn:N.
  - apply Nat.ltb_lt in N.
    split; [|split; [|split]]; try discriminate; auto.
    intros l. split; [discriminate|]. intros [H _]. lia.
  - apply Nat.ltb_ge in N.
    destruct (save_files files) as [[detail|]|x] eqn:S.
    + split; [|split; [|split]]; try discriminate.
      * intros l. split; [discriminate|]. intros (_ & A & _).
        apply save_files_all in A. congruence.
      * intros H. lia.
      * intros d [= <-]. right. now apply save_files_invalid.
    + split; [|split; [|split]]; try discriminate.
      * intros l. split.
        -- intros [= <-]. split; [exact N|].
           split; [now apply save_files_all|reflexivity].
        -- intros (_ & _ & ->). reflexivity.
      * intros l [= <-]. unfold upload_images. apply firstn_le_length.
      * intros H. lia.
    + split; [|split; [|split]]; try discriminate.
      * intros l. split; [discriminate|]. intros (_ & A & _).
        apply save_files_all in A. congruence.
      * intros H. lia.
Qed.

(** X9 at six files. *)
Lemma upload_endpoint_answers_witness :
  upload_endpoint
    (repeat (mkUpload (mkUploadFile None (Raise APIError) None)
               (Raise APIError) (Raise APIError)) 6)
  = BadRequest "Maximum 5 images allowed".
Proof.
  apply (proj1 (proj2 (proj2 (upload_endpoint_answers _)))).
  simpl. lia.
Defined.

(* ================================================================= *)
(** ** [validate_ingredients] *)

Section ValidateIngredients.

Lemma validate_fold (l acc : list string) :
  fold_left validate_step l acc = acc ++ flat_map keep l.
Proof.
  revert acc. induction l as [|i l IH]; simpl; intros acc.
  - now rewrite app_nil_r.
  - rewrite IH. unfold validate_step, keep, kept.
    destruct (truthy (lower (strip i))
              && (2 <? String.length (lower (strip i)))%nat
              && negb (contains non_food_items (lower (strip i))));
      simpl; [now rewrite <- app_assoc|reflexivity].
Qed.

Lemma validate_flat_map (l : list string) :
  validate_ingredients l = flat_map keep l.
Proof. unfold validate_ingredients. now rewrite validate_fold. Qed.

Lemma validate_In (l : list string) (c : string) :
  In c (validate_ingredients l)
  <-> exists i, In i l /\ c = lower (strip i) /\ kept c = true.
Proof.
  rewrite validate_flat_map, in_flat_map. unfold keep. split.
  - intros (i & Hi & H).
    destruct (kept (lower (strip i))) eqn:K; [|destruct H].
    destruct H as [<-|[]]. eauto.
  - intros (i & Hi & -> & K). exists i. rewrite K. simpl. auto.
Qed.

Lemma keep_cleaned (i : string) :
  kept (lower (strip i)) = true -> keep (lower (strip i)) = [lower (strip i)].
Proof.
  intros K. unfold keep.
  now rewrite strip_lower, strip_idempotent, lower_idempotent, K.
Qed.

End ValidateIngredients.


(** X11.  [validate_ingredients] is idempotent: validating a validated
    list returns it unchanged. *)
Theorem validate_ingredients_idempotent (l : list string) :
  validate_ingredients (validate_ingredients l) = validate_ingredients l.
Proof.
  rewrite !validate_flat_map.
  induction l as [|i l IH]; simpl; [reflexivity|].
  rewrite flat_map_app, IH. f_equal.
  destruct (kept (lower (strip i))) eqn:K.
  - assert (E : keep i = [lower (strip i)]) by (unfold keep; now rewrite K).
    rewrite E. simpl. now rewrite (keep_cleaned i K).
  - assert (E : keep i = []) by (unfold keep; now rewrite K).
    now rewrite E.
Qed.

(* ================================================================= *)
(** ** The page number of the recipe history *)

(** X12.  For a positive [limit] and a non-negative [skip] the history
    carries the fetched recipes and count, and its page number is the
    one page, counted from 1, whose range of [limit] positions holds
    [skip].  A [limit] of 0 gives the empty first page with a total of
    0, whatever was fetched, as does a failure of the database. *)
Theorem history_page_number (Response : Type) :
  (forall (rs : list Response) count limit skip,
      (0 < limit)%Z -> (0 <= skip)%Z ->
      let h := get_user_recipe_history (Ok (rs, count)) limit skip in
      recipes h = rs /\ total_count h = count /\ per_page h = limit
      /\ (1 <= page h)%Z
      /\ ((page h - 1) * limit <= skip < page h * limit)%Z)
  /\ (forall (fetched : result (list Response * Z)) skip,
        get_user_recipe_history fetched 0 skip = mkHistory [] 0 1 0)
  /\ (forall e limit skip,
        @get_user_recipe_history Response (Raise e) limit skip
        = mkHistory [] 0 1 limit).
Proof.
  split; [|split].
  - intros rs count limit skip L S h. unfold h, get_user_recipe_history,
      floordiv.
    assert (N : (limit =? 0)%Z = false) by (apply Z.eqb_neq; lia).
    rewrite N. cbn [recipes total_count per_page page].
    repeat split.
    + pose proof (Z.div_pos skip limit S L). lia.
    + pose proof (Z.mul_div_le skip limit L). lia.
    + pose proof (Z.mul_succ_div_gt skip limit L). lia.
  - intros [[rs count]|e] skip; reflexivity.
  - reflexivity.
Qed.

(** X12 at a page size of 20 and 45 skipped records: page 3. *)
Lemma history_page_number_witness :
  page (get_user_recipe_history (Ok ([tt; tt], 47%Z)) 20 45) = 3%Z
  /\ (1 <= page (get_user_recipe_history (Ok ([tt; tt], 47%Z)) 20 45))%Z.
Proof.
  split; [reflexivity|].
  apply (proj1 (history_page_number unit) [tt; tt] 47%Z 20%Z 45%Z); lia.
Defined.

(* ================================================================= *)
(** ** The last-resort recipe, the reply as it is, the code fence *)

(** X13.  The rule-based fallback returns the last-resort recipe
    exactly when the ingredient list is empty; on a non-empty list it
    returns one of the three templates.  The same holds for the
    synthesizer whenever its generative attempt fails. *)
Theorem last_resort_iff_no_ingredient (request : GeneratedRecipeRequest) :
  (fallback_rule_based_recipe request = absolute_fallback
   <-> ingredients request = [])
  /\ (forall first rest,
        ingredients request = first :: rest ->
        fallback_rule_based_recipe request = grain_based first (first :: rest)
        \/ fallback_rule_based_recipe request = protein_based first first
        \/ fallback_rule_based_recipe request = vegetable_stir_fry)
  /\ (forall json_loads response e,
        generative_attempt json_loads response = Raise e ->
        (generate_ai_recipe json_loads response request = absolute_fallback
         <-> ingredients request = [])).
Proof.
  assert (T : forall first rest,
             ingredients request = first :: rest ->
             fallback_rule_based_recipe request
             = grain_based first (first :: rest)
             \/ fallback_rule_based_recipe request = protein_based first first
             \/ fallback_rule_based_recipe request = vegetable_stir_fry).
  { intros first rest E. destruct request as [ings d c l]. simpl in E.
    subst ings. rewrite fallback_cons.
    destruct (existsb _ grains); [tauto|].
    destruct (existsb _ proteins); tauto. }
  assert (I : fallback_rule_based_recipe request = absolute_fallback
              <-> ingredients request = []).
  { split.
    - destruct (ingredients request) as [|first rest] eqn:E; [reflexivity|].
      intros H. exfalso.
      destruct (T first rest eq_refl) as [R|[R|R]]; rewrite R in H;
        apply (f_equal estimated_time) in H; discriminate H.
    - intros E. unfold fallback_rule_based_recipe, fallback_body.
      now rewrite E. }
  split; [exact I|]. split; [exact T|].
  intros json_loads response e H.
  now rewrite (generate_on_failure _ _ _ _ H).
Qed.

(** X13 at a request for lentils. *)
Lemma last_resort_iff_no_ingredient_witness :
  fallback_rule_based_recipe (request_for ["lentils"]) = vegetable_stir_fry.
Proof.
  destruct (proj1 (proj2 (last_resort_iff_no_ingredient
                            (request_for ["lentils"])))
              "lentils" [] eq_refl) as [H|[H|H]].
  - apply (f_equal estimated_time) in H. discriminate H.
  - apply (f_equal estimated_time) in H. discriminate H.
  - exact H.
Defined.

Lemma str_items_map (l : list string) : str_items (map JStr l) = Ok l.
Proof.
  induction l as [|s l IH]; simpl; [reflexivity|]. now rewrite IH.
Qed.

Lemma construct_encode (r : GeneratedRecipe) : construct (encode r) = Ok r.
Proof.
  destruct r as [t s e d p n]. unfold encode, construct.
  cbn [title steps estimated_time difficulty tips servings].
  unfold required_str, required_str_list, required_int, optional_str,
    int_default. simpl. rewrite str_items_map. simpl.
  now destruct p.
Qed.

(** X14.  A reply whose JSON value is the object of the six fields of a
    recipe is parsed back into that recipe, and the synthesizer returns
    it field by field, whatever its values and whatever the request. *)
Theorem reply_is_returned_verbatim :
  (forall r, construct (encode r) = Ok r)
  /\ (forall json_loads content request r,
        json_loads (clean_response content) = Ok (encode r) ->
        generate_ai_recipe json_loads (Ok content) request = r).
Proof.
  split; [exact construct_encode|].
  intros json_loads content request r H.
  unfold generate_ai_recipe, generative_attempt. cbn [bind].
  rewrite H. cbn [bind]. now rewrite construct_encode.
Qed.

(** X14 at a reply that carries the last-resort recipe, for a request
    for rice. *)
Lemma reply_is_returned_verbatim_witness :
  generate_ai_recipe (fun _ => Ok (encode absolute_fallback))
    (Ok "{}") (request_for ["rice"])
  = absolute_fallback.
Proof.
  apply (proj2 reply_is_returned_verbatim). reflexivity.
Defined.

Section Fence.




Lemma append_length (s t : string) :
  String.length (s ++ t) = (String.length s + String.length t)%nat.
Proof. induction s as [|c s IH]; simpl; congruence. Qed.




End Fence.



(* ================================================================= *)
(** ** Repeated names within one list *)






(* ================================================================= *)
(** * Properties over the string methods of the library *)

(** ** The instance of the ASCII methods *)

Lemma merge_at_ascii_methods (local_results openai_results : list pydict) :
  Unicode.merge_detection_results Unicode.ascii_methods
    local_results openai_results
  = merge_detection_results local_results openai_results.
Proof. reflexivity. Qed.

Lemma fallback_at_ascii_methods (request : GeneratedRecipeRequest) :
  Unicode.fallback_rule_based_recipe Unicode.ascii_methods request
  = fallback_rule_based_recipe request.
Proof. reflexivity. Qed.

(** Code points on sample texts: two bytes for one letter count once,
    and a slice cuts whole letters. *)
Example len_sample :
  Unicode.chars "éa" = ["é"; "a"]
  /\ Unicode.len "éa" = 2%nat /\ String.length "éa" = 3%nat
  /\ Unicode.len "tomato" = 6%nat.
Proof. repeat split. Qed.

Example slice_sample :
  Unicode.slice 7 3 "```json[1]ééé" = "[1]"
  /\ Unicode.slice 3 3 "```{}```" = "{}"
  /\ Unicode.slice 7 3 "```json" = EmptyString.
Proof. repeat split. Qed.

Lemma lower_app (s t : string) :
  lower (s ++ t)%string = (lower s ++ lower t)%string.
Proof. induction s as [|c s IH]; simpl; congruence. Qed.

Lemma is_space_lower_fixed (c : ascii) :
  is_space c = true -> lower_ascii c = c.
Proof.
  destruct c as [[] [] [] [] [] [] [] []]; intros H;
    first [reflexivity | discriminate H].
Qed.

Lemma lower_blank (w : string) : Unicode.blank w = true -> lower w = w.
Proof.
  induction w as [|c w IH]; simpl; [reflexivity|].
  rewrite andb_true_iff. intros [Hc Hw].
  now rewrite (is_space_lower_fixed c Hc), (IH Hw).
Qed.

(** [lower] leaves a padding of whitespace where it is. *)
Lemma lower_padded (w1 s w2 : string) :
  Unicode.blank w1 = true -> Unicode.blank w2 = true ->
  lower (w1 ++ s ++ w2)%string = (w1 ++ lower s ++ w2)%string.
Proof.
  intros H1 H2. now rewrite !lower_app, (lower_blank w1 H1), (lower_blank w2 H2).
Qed.

Lemma padded_differs (w1 s w2 : string) :
  (w1 ++ w2)%string <> EmptyString -> (w1 ++ s ++ w2)%string <> s.
Proof.
  intros N E. apply (f_equal String.length) in E.
  rewrite !append_length in E.
  destruct w1 as [|a w1]; [destruct w2 as [|b w2]|]; simpl in *;
    [congruence|lia|lia].
Qed.

(* ================================================================= *)
(** ** The merger over an arbitrary [lower] *)

Section MergerOverMethods.

Variable lib : Unicode.strlib.

Lemma local_step_reads (d : scores) (e : pydict) :
  match Unicode.read lib e with
  | Some p => Unicode.local_step lib d e = Ok (put_local d p)
  | None => exists x, Unicode.local_step lib d e = Raise x
  end.
Proof.
  unfold Unicode.read, Unicode.local_step, Unicode.lower_method, put_local.
  destruct (getitem e "name") as [[s|x|]|x]; simpl; eauto.
  destruct (getitem e "confidence") as [[s'|c|]|x]; simpl; eauto.
Qed.

Lemma openai_step_reads (d : scores) (e : pydict) :
  match Unicode.read lib e with
  | Some p => Unicode.openai_step lib d e = Ok (put_openai d p)
  | None => exists x, Unicode.openai_step lib d e = Raise x
  end.
Proof.
  unfold Unicode.read, Unicode.openai_step, Unicode.lower_method, put_openai.
  destruct (getitem e "name") as [[s|x|]|x]; simpl; eauto.
  destruct (getitem e "confidence") as [[s'|c|]|x]; simpl;
    destruct (lookup d (Unicode.str_lower lib s)); simpl; eauto.
Qed.

Lemma for_each_reads (step : scores -> pydict -> result scores)
    (put : scores -> string * float -> scores) :
  (forall d e, match Unicode.read lib e with
               | Some p => step d e = Ok (put d p)
               | None => exists x, step d e = Raise x
               end) ->
  forall l d,
    match Unicode.readings lib l with
    | Some ps => for_each step l d = Ok (fold_left put ps d)
    | None => exists x, for_each step l d = Raise x
    end.
Proof.
  intros H. induction l as [|e l IH]; intros d; simpl; [reflexivity|].
  specialize (H d e). destruct (Unicode.read lib e) as [p|].
  - rewrite H. simpl. specialize (IH (put d p)).
    destruct (Unicode.readings lib l) as [ps|]; [exact IH|exact IH].
  - destruct H as (x & ->). simpl. eauto.
Qed.

Lemma collect_reads (local_results openai_results : list pydict) :
  match Unicode.readings lib local_results,
        Unicode.readings lib openai_results with
  | Some pl, Some pr =>
      Unicode.collect lib local_results openai_results = Ok (dict_of pl pr)
  | _, _ =>
      exists x, Unicode.collect lib local_results openai_results = Raise x
  end.
Proof.
  unfold Unicode.collect, dict_of.
  pose proof (for_each_reads (Unicode.local_step lib) put_local
                local_step_reads local_results []) as HL.
  destruct (Unicode.readings lib local_results) as [pl|].
  - rewrite HL. simpl.
    pose proof (for_each_reads (Unicode.openai_step lib) put_openai
                  openai_step_reads openai_results
                  (fold_left put_local pl [])) as HR.
    destruct (Unicode.readings lib openai_results) as [pr|]; exact HR.
  - destruct HL as (x & ->). simpl. eauto.
Qed.

Lemma merge_reads (local_results openai_results : list pydict)
    (pl pr : list (string * float)) :
  Unicode.readings lib local_results = Some pl ->
  Unicode.readings lib openai_results = Some pr ->
  Unicode.merge_detection_results lib local_results openai_results
  = sort_desc (filter above_threshold (values (dict_of pl pr))).
Proof.
  intros HL HR. pose proof (collect_reads local_results openai_results) as H.
  rewrite HL, HR in H.
  unfold Unicode.merge_detection_results, Unicode.merge_body. now rewrite H.
Qed.

Lemma merge_unreadable (local_results openai_results : list pydict) :
  Unicode.readings lib local_results = None
  \/ Unicode.readings lib openai_results = None ->
  Unicode.merge_detection_results lib local_results openai_results = [].
Proof.
  intros H. pose proof (collect_reads local_results openai_results) as C.
  assert (R : exists x,
             Unicode.collect lib local_results openai_results = Raise x).
  { destruct H as [H|H]; rewrite H in C;
      [|destruct (Unicode.readings lib local_results)]; exact C. }
  destruct R as (x & R).
  unfold Unicode.merge_detection_results, Unicode.merge_body. now rewrite R.
Qed.

Lemma read_lowers (e : pydict) (k : string) (c : float) :
  Unicode.read lib e = Some (k, c) ->
  exists s, getitem e "name" = Ok (PStr s) /\ k = Unicode.str_lower lib s.
Proof.
  unfold Unicode.read.
  destruct (getitem e "name") as [[s|x|]|x]; try discriminate.
  destruct (getitem e "confidence") as [[s'|c'|]|x]; try discriminate.
  intros [= <- <-]. eauto.
Qed.

Lemma readings_members (l : list pydict) (ps : list (string * float))
    (p : string * float) :
  Unicode.readings lib l = Some ps -> In p ps ->
  exists e, In e l /\ Unicode.read lib e = Some p.
Proof.
  revert ps. induction l as [|e l IH]; simpl; intros ps H Hp.
  - inversion H; subst. destruct Hp.
  - destruct (Unicode.read lib e) as [q|] eqn:E; [|discriminate].
    destruct (Unicode.readings lib l) as [qs|]; [|discriminate].
    inversion H; subst. destruct Hp as [->|Hp]; [eauto|].
    destruct (IH qs eq_refl Hp) as (e' & He' & R). eauto.
Qed.

(** Every merged name is the lowercased name of an input record. *)
Lemma merged_name_lowered (local_results openai_results : list pydict)
    (m : Score) :
  In m (Unicode.merge_detection_results lib local_results openai_results) ->
  exists e s,
    In e (local_results ++ openai_results)
    /\ getitem e "name" = Ok (PStr s)
    /\ name m = Unicode.str_lower lib s.
Proof.
  destruct (Unicode.readings lib local_results) as [pl|] eqn:HL;
    [destruct (Unicode.readings lib openai_results) as [pr|] eqn:HR|];
    try (rewrite merge_unreadable by auto; intros []).
  rewrite (merge_reads _ _ pl pr HL HR), sort_desc_In, filter_In.
  intros [H _]. apply (in_map name) in H.
  rewrite (values_names _ (dict_of_well_keyed pl pr)), keys_dict_of in H.
  apply fold_see_In in H. destruct H as [H|[]].
  apply in_app_or in H.
  destruct H as [H|H]; apply in_map_iff in H;
    destruct H as ([k c] & E & Hp); simpl in E; subst k.
  - destruct (readings_members _ _ _ HL Hp) as (e & He & R).
    destruct (read_lowers _ _ _ R) as (s & Hs & E).
    exists e, s. rewrite in_app_iff. auto.
  - destruct (readings_members _ _ _ HR Hp) as (e & He & R).
    destruct (read_lowers _ _ _ R) as (s & Hs & E).
    exists e, s. rewrite in_app_iff. auto.
Qed.

Lemma merged_names_NoDup (local_results openai_results : list pydict) :
  NoDup (map name
           (Unicode.merge_detection_results lib local_results openai_results)).
Proof.
  destruct (Unicode.readings lib local_results) as [pl|] eqn:HL;
    [destruct (Unicode.readings lib openai_results) as [pr|] eqn:HR|];
    try (rewrite merge_unreadable by auto; constructor).
  rewrite (merge_reads _ _ pl pr HL HR).
  eapply Permutation_NoDup.
  - apply Permutation_map. apply sort_desc_perm.
  - apply filter_map_NoDup.
    rewrite (values_names _ (dict_of_well_keyed pl pr)).
    apply dict_of_NoDup.
Qed.

(** A local and a remote record whose lowercased names are equal. *)
Lemma merge_same_key (n1 n2 : string) (c1 c2 : float) :
  Unicode.str_lower lib n1 = Unicode.str_lower lib n2 ->
  Unicode.merge_detection_results lib
    [local_entry n1 c1] [openai_entry n2 c2]
  = filter above_threshold
      [mkScore (Unicode.str_lower lib n1)
         (min2 ((c1 * 0.6 + c2 * 0.4) * 1.2)%float 1.0%float)
         ["local_ml"; "openai_vision"]].
Proof.
  intros E.
  rewrite (merge_reads [local_entry n1 c1] [openai_entry n2 c2]
             [(Unicode.str_lower lib n1, c1)]
             [(Unicode.str_lower lib n2, c2)] eq_refl eq_refl).
  unfold dict_of, put_openai, put_local. simpl.
  rewrite <- E, String.eqb_refl. simpl.
  now destruct (above_threshold _).
Qed.

(** A local and a remote record whose lowercased names differ. *)
Lemma merge_other_key (n1 n2 : string) (c1 c2 : float) :
  Unicode.str_lower lib n1 <> Unicode.str_lower lib n2 ->
  Unicode.merge_detection_results lib
    [local_entry n1 c1] [openai_entry n2 c2]
  = sort_desc
      (filter above_threshold
         [mkScore (Unicode.str_lower lib n1) (c1 * 0.6)%float ["local_ml"];
          mkScore (Unicode.str_lower lib n2) (c2 * 0.4)%float
            ["openai_vision"]]).
Proof.
  intros N. apply String.eqb_neq in N.
  rewrite (merge_reads [local_entry n1 c1] [openai_entry n2 c2]
             [(Unicode.str_lower lib n1, c1)]
             [(Unicode.str_lower lib n2, c2)] eq_refl eq_refl).
  unfold dict_of, put_openai, put_local. simpl.
  rewrite N. reflexivity.
Qed.

Lemma readings_cover (l : list pydict) (ps : list (string * float))
    (e : pydict) :
  Unicode.readings lib l = Some ps -> In e l ->
  exists p, Unicode.read lib e = Some p /\ In p ps.
Proof.
  revert ps. induction l as [|e' l IH]; simpl; intros ps H He; [destruct He|].
  destruct (Unicode.read lib e') as [q|] eqn:E; [|discriminate].
  destruct (Unicode.readings lib l) as [qs|]; [|discriminate].
  inversion H; subst. destruct He as [->|He].
  - exists q. simpl. auto.
  - destruct (IH qs eq_refl He) as (p & R & Hp). exists p. simpl. auto.
Qed.

(** After the two loops every record of the inputs has, under its
    lowercased name, a record of the dictionary. *)
Lemma every_name_keyed (local_results openai_results : list pydict)
    (d : scores) :
  Unicode.collect lib local_results openai_results = Ok d ->
  Unicode.merge_detection_results lib local_results openai_results
  = sort_desc (filter above_threshold (values d))
  /\ forall e s,
       In e (local_results ++ openai_results) ->
       getitem e "name" = Ok (PStr s) ->
       exists v, In v (values d) /\ name v = Unicode.str_lower lib s.
Proof.
  intros C. split.
  - unfold Unicode.merge_detection_results, Unicode.merge_body.
    now rewrite C.
  - pose proof (collect_reads local_results openai_results) as H.
    destruct (Unicode.readings lib local_results) as [pl|] eqn:HL;
      [destruct (Unicode.readings lib openai_results) as [pr|] eqn:HR|];
      try (destruct H as (x & H); rewrite H in C; discriminate C).
    rewrite H in C. injection C as <-.
    intros e s He Hs.
    assert (K : In (Unicode.str_lower lib s) (map fst pl ++ map fst pr)).
    { apply in_app_or in He. apply in_or_app.
      destruct He as [He|He]; [left|right].
      - destruct (readings_cover _ _ _ HL He) as ([k c] & R & Hp).
        unfold Unicode.read in R. rewrite Hs in R.
        destruct (getitem e "confidence") as [[s'|c'|]|x]; try discriminate.
        injection R as <- <-. apply (in_map fst) in Hp. exact Hp.
      - destruct (readings_cover _ _ _ HR He) as ([k c] & R & Hp).
        unfold Unicode.read in R. rewrite Hs in R.
        destruct (getitem e "confidence") as [[s'|c'|]|x]; try discriminate.
        injection R as <- <-. apply (in_map fst) in Hp. exact Hp. }
    assert (F : In (Unicode.str_lower lib s) (map fst (dict_of pl pr))).
    { rewrite keys_dict_of. apply fold_see_complete. now left. }
    apply in_map_iff in F. destruct F as ([k v] & E & Hv). simpl in E.
    subst k. exists v. split.
    + apply values_In. eauto.
    + exact (dict_of_well_keyed pl pr _ _ Hv).
Qed.

End MergerOverMethods.

(** C8, amended.  The merger keys a record by its name in lower case,
    as the library's [lower] gives it, and does not trim it.  Every
    merged name is the lowercased name of a record of the inputs and no
    merged name occurs twice; when the loops end without an exception,
    every record of the inputs has under its lowercased name a record
    of the dictionary, and the result is the records of the dictionary
    above the threshold.  A local and a remote record whose names
    have the same lower case, as names that differ only in case do,
    merge into one record; two whose lowercased names differ stay two
    records, each weighted on its own.  So a name and the same name
    with whitespace around it stay separate records, on either side:
    [lower] leaves such a padding where it is. *)
Theorem merge_normalizes_case (lib : Unicode.strlib) :
  (forall local_results openai_results m,
      In m (Unicode.merge_detection_results lib local_results openai_results) ->
      exists e s,
        In e (local_results ++ openai_results)
        /\ getitem e "name" = Ok (PStr s)
        /\ name m = Unicode.str_lower lib s)
  /\ (forall local_results openai_results,
        NoDup (map name
                 (Unicode.merge_detection_results lib
                    local_results openai_results)))
  /\ (forall local_results openai_results d,
        Unicode.collect lib local_results openai_results = Ok d ->
        Unicode.merge_detection_results lib local_results openai_results
        = sort_desc (filter above_threshold (values d))
        /\ forall e s,
             In e (local_results ++ openai_results) ->
             getitem e "name" = Ok (PStr s) ->
             exists v, In v (values d) /\ name v = Unicode.str_lower lib s)
  /\ (forall n1 n2 c1 c2,
        Unicode.str_lower lib n1 = Unicode.str_lower lib n2 ->
        Unicode.merge_detection_results lib
          [local_entry n1 c1] [openai_entry n2 c2]
        = filter above_threshold
            [mkScore (Unicode.str_lower lib n1)
               (min2 ((c1 * 0.6 + c2 * 0.4) * 1.2)%float 1.0%float)
               ["local_ml"; "openai_vision"]])
  /\ (forall n1 n2 c1 c2,
        Unicode.str_lower lib n1 <> Unicode.str_lower lib n2 ->
        Unicode.merge_detection_results lib
          [local_entry n1 c1] [openai_entry n2 c2]
        = sort_desc
            (filter above_threshold
               [mkScore (Unicode.str_lower lib n1) (c1 * 0.6)%float
                  ["local_ml"];
                mkScore (Unicode.str_lower lib n2) (c2 * 0.4)%float
                  ["openai_vision"]]))
  /\ ((forall w1 s w2,
          Unicode.blank w1 = true -> Unicode.blank w2 = true ->
          Unicode.str_lower lib (w1 ++ s ++ w2)%string
          = (w1 ++ Unicode.str_lower lib s ++ w2)%string) ->
      (forall w1 w2 v1 v2 n c1 c2,
          Unicode.blank w1 = true -> Unicode.blank w2 = true ->
          Unicode.blank v1 = true -> Unicode.blank v2 = true ->
          (w1 ++ Unicode.str_lower lib n ++ w2)%string
          <> (v1 ++ Unicode.str_lower lib n ++ v2)%string ->
          Unicode.merge_detection_results lib
            [local_entry (w1 ++ n ++ w2)%string c1]
            [openai_entry (v1 ++ n ++ v2)%string c2]
          = sort_desc
              (filter above_threshold
                 [mkScore (w1 ++ Unicode.str_lower lib n ++ w2)%string
                    (c1 * 0.6)%float ["local_ml"];
                  mkScore (v1 ++ Unicode.str_lower lib n ++ v2)%string
                    (c2 * 0.4)%float ["openai_vision"]]))
      /\ forall w1 n w2 c1 c2,
        Unicode.blank w1 = true -> Unicode.blank w2 = true ->
        (w1 ++ w2)%string <> EmptyString ->
        Unicode.merge_detection_results lib
          [local_entry (w1 ++ n ++ w2)%string c1] [openai_entry n c2]
        = sort_desc
            (filter above_threshold
               [mkScore (w1 ++ Unicode.str_lower lib n ++ w2)%string
                  (c1 * 0.6)%float ["local_ml"];
                mkScore (Unicode.str_lower lib n) (c2 * 0.4)%float
                  ["openai_vision"]])
        /\ Unicode.merge_detection_results lib
             [local_entry n c1] [openai_entry (w1 ++ n ++ w2)%string c2]
           = sort_desc
               (filter above_threshold
                  [mkScore (Unicode.str_lower lib n) (c1 * 0.6)%float
                     ["local_ml"];
                   mkScore (w1 ++ Unicode.str_lower lib n ++ w2)%string
                     (c2 * 0.4)%float ["openai_vision"]])).
Proof.
  split; [exact (merged_name_lowered lib)|].
  split; [exact (merged_names_NoDup lib)|].
  split; [exact (every_name_keyed lib)|].
  split; [exact (merge_same_key lib)|].
  split; [exact (merge_other_key lib)|].
  intros P. split.
  - intros w1 w2 v1 v2 n c1 c2 B1 B2 C1 C2 N.
    rewrite <- (P w1 n w2 B1 B2), <- (P v1 n v2 C1 C2) in *.
    now apply merge_other_key.
  - intros w1 n w2 c1 c2 B1 B2 N.
    pose proof (padded_differs w1 (Unicode.str_lower lib n) w2 N) as D.
    rewrite <- (P w1 n w2 B1 B2) in *.
    split; apply merge_other_key; congruence.
Qed.

(** The amended C8 with the ASCII methods: "Tomato" and "TOMATO" give
    one record, "tomato" between two spaces and "tomato" give two. *)
Lemma merge_normalizes_case_witness :
  Unicode.merge_detection_results Unicode.ascii_methods
    [local_entry "Tomato" 0.9%float] [openai_entry "TOMATO" 0.8%float]
  = [mkScore "tomato" 1.0%float ["local_ml"; "openai_vision"]]
  /\ Unicode.merge_detection_results Unicode.ascii_methods
       [local_entry " tomato " 0.9%float] [openai_entry "tomato" 0.8%float]
     = [mkScore " tomato " 0.54%float ["local_ml"];
        mkScore "tomato" 0.32000000000000006%float ["openai_vision"]].
Proof.
  split.
  - rewrite (proj1 (proj2 (proj2 (proj2
               (merge_normalizes_case Unicode.ascii_methods))))
               "Tomato" "TOMATO" 0.9%float 0.8%float eq_refl).
    vm_compute. reflexivity.
  - assert (N : (" " ++ " ")%string <> EmptyString) by discriminate.
    change " tomato " with (" " ++ "tomato" ++ " ")%string.
    rewrite (proj1 (proj2 (proj2 (proj2 (proj2 (proj2 (proj2
               (merge_normalizes_case Unicode.ascii_methods)))))
               lower_padded) " " "tomato" " " 0.9%float 0.8%float
               eq_refl eq_refl N)).
    vm_compute. reflexivity.
Defined.

(* ================================================================= *)
(** ** The synthesizer over an arbitrary [title], [strip] and model class *)

Section SynthesizerOverMethods.

Variable lib : Unicode.strlib.

(** What the fallback returns on a non-empty ingredient list. *)
Lemma fallback_on_cons (first : string) (rest : list string)
    (dietary : option (list string)) (cuisine level : option string) :
  Unicode.fallback_rule_based_recipe lib
    (mkRequest (first :: rest) dietary cuisine level)
  = if existsb (fun k => contains (first :: rest) k) grains
    then Unicode.grain_based lib first (first :: rest)
    else if existsb (fun k => contains (first :: rest) k) proteins
    then Unicode.protein_based lib first first
    else vegetable_stir_fry.
Proof.
  unfold Unicode.fallback_rule_based_recipe, Unicode.fallback_body,
    recipe_type.
  cbn [ingredients index0 bind].
  destruct (existsb (fun k => contains (first :: rest) k) grains);
    [reflexivity|].
  destruct (existsb (fun k => contains (first :: rest) k) proteins);
    reflexivity.
Qed.

Lemma fallback_is_valid (request : GeneratedRecipeRequest) :
  ingredients request <> [] ->
  valid_recipe (Unicode.fallback_rule_based_recipe lib request) = true.
Proof.
  destruct request as [ings d c l]. simpl.
  destruct ings as [|first rest]; [congruence|]. intros _.
  rewrite fallback_on_cons.
  destruct (existsb _ grains); [|destruct (existsb _ proteins)].
  - unfold valid_recipe, Unicode.grain_based.
    cbn [title steps estimated_time servings difficulty].
    rewrite nonempty_app_r by reflexivity. reflexivity.
  - reflexivity.
  - reflexivity.
Qed.

Variable json_loads : string -> result json.
Variable model_class : json -> result GeneratedRecipe.

Lemma generate_falls_back (response : result string)
    (request : GeneratedRecipeRequest) (e : exn) :
  Unicode.generative_attempt lib json_loads model_class response = Raise e ->
  Unicode.generate_ai_recipe lib json_loads model_class response request
  = Unicode.fallback_rule_based_recipe lib request.
Proof.
  unfold Unicode.generate_ai_recipe. intros ->. now destruct e.
Qed.

End SynthesizerOverMethods.

(** C4.  When the generative attempt fails the fallback is returned, and
    the fallback puts the request in one of three buckets, tried in this
    order: a grain (rice, pasta, noodles) among the ingredients gives
    the grain template; otherwise a protein (chicken, beef, fish,
    paneer, tofu) gives the protein template; otherwise the stir-fry
    template.  Each template is fixed but for the first ingredient,
    which the grain and the protein template show in title case, and
    for the list of ingredients in the first step of the grain
    template.  Rice and egg give "Rice Bowl", chicken and salt "Simple
    Chicken Dish", carrot and pepper "Mixed Vegetable Stir Fry". *)
Theorem fallback_classification (lib : Unicode.strlib) :
  (forall json_loads model_class response request e,
      Unicode.generative_attempt lib json_loads model_class response
      = Raise e ->
      Unicode.generate_ai_recipe lib json_loads model_class response request
      = Unicode.fallback_rule_based_recipe lib request)
  /\ (forall first rest dietary cuisine level,
        let ings := first :: rest in
        let request := mkRequest ings dietary cuisine level in
        let no (keywords : list string) :=
          forall x, In x ings -> ~ In x keywords in
        ((exists x, In x ings /\ In x ["rice"; "pasta"; "noodles"]) ->
         Unicode.fallback_rule_based_recipe lib request
         = mkRecipe
             (Unicode.str_title lib first ++ " Bowl")%string
             [ ("Prepare all ingredients: "
                ++ String.concat ", " ings)%string;
               "Heat oil in a large pan or wok";
               "Add aromatics (onion, garlic, ginger) if available";
               "Add main ingredients and cook until tender";
               "Season with salt, pepper, and available spices";
               "Serve hot and enjoy!" ]
             25 "easy" (Some "Feel free to adjust seasoning to taste") 4)
        /\ (no ["rice"; "pasta"; "noodles"] ->
            (exists x, In x ings
                       /\ In x ["chicken"; "beef"; "fish"; "paneer"; "tofu"]) ->
            Unicode.fallback_rule_based_recipe lib request
            = mkRecipe
                ("Simple " ++ Unicode.str_title lib first ++ " Dish")%string
                [ ("Clean and prepare " ++ first)%string;
                  "Heat oil in a pan";
                  "Cook protein until golden brown";
                  "Add vegetables and seasonings";
                  "Cook until everything is well combined";
                  "Serve with rice or bread" ]
                30 "medium" (Some "Don't overcook the protein") 4)
        /\ (no ["rice"; "pasta"; "noodles"] ->
            no ["chicken"; "beef"; "fish"; "paneer"; "tofu"] ->
            Unicode.fallback_rule_based_recipe lib request
            = mkRecipe
                "Mixed Vegetable Stir Fry"
                [ "Wash and chop all vegetables";
                  "Heat oil in a wok or large pan";
                  "Add harder vegetables first";
                  "Stir fry on high heat";
                  "Add softer vegetables";
                  "Season and serve hot" ]
                15 "easy" (Some "Keep vegetables crispy for better texture")
                4))
  /\ (let r := Unicode.fallback_rule_based_recipe Unicode.ascii_methods
                 (request_for ["rice"; "egg"]) in
      r = mkRecipe
            "Rice Bowl"
            [ "Prepare all ingredients: rice, egg";
              "Heat oil in a large pan or wok";
              "Add aromatics (onion, garlic, ginger) if available";
              "Add main ingredients and cook until tender";
              "Season with salt, pepper, and available spices";
              "Serve hot and enjoy!" ]
            25 "easy" (Some "Feel free to adjust seasoning to taste") 4
      /\ String.prefix "Rice" (title r) = true)
  /\ Unicode.fallback_rule_based_recipe Unicode.ascii_methods
       (request_for ["chicken"; "salt"])
     = mkRecipe
         "Simple Chicken Dish"
         [ "Clean and prepare chicken";
           "Heat oil in a pan";
           "Cook protein until golden brown";
           "Add vegetables and seasonings";
           "Cook until everything is well combined";
           "Serve with rice or bread" ]
         30 "medium" (Some "Don't overcook the protein") 4
  /\ (let r := Unicode.fallback_rule_based_recipe Unicode.ascii_methods
                 (request_for ["carrot"; "pepper"]) in
      r = mkRecipe
            "Mixed Vegetable Stir Fry"
            [ "Wash and chop all vegetables";
              "Heat oil in a wok or large pan";
              "Add harder vegetables first";
              "Stir fry on high heat";
              "Add softer vegetables";
              "Season and serve hot" ]
            15 "easy" (Some "Keep vegetables crispy for better texture") 4
      /\ title r = "Mixed Vegetable Stir Fry").
Proof.
  split; [exact (generate_falls_back lib)|].
  split; [|repeat split; reflexivity].
  intros first rest dietary cuisine level ings request no.
  subst no request ings. cbv beta. rewrite fallback_on_cons.
  change grains with ["rice"; "pasta"; "noodles"].
  change proteins with ["chicken"; "beef"; "fish"; "paneer"; "tofu"].
  repeat split.
  - intros H. apply any_keyword in H. now rewrite H.
  - intros Hg Hp. apply no_keyword in Hg. apply any_keyword in Hp.
    now rewrite Hg, Hp.
  - intros Hg Hp. apply no_keyword in Hg. apply no_keyword in Hp.
    now rewrite Hg, Hp.
Qed.

(** C4 at a request for egg and noodles whose service call raised, and
    at one for tofu and kale. *)
Lemma fallback_classification_witness :
  title
    (Unicode.generate_ai_recipe Unicode.ascii_methods loads_nothing construct
       (Raise APIError) (request_for ["egg"; "noodles"]))
  = "Egg Bowl"
  /\ title
       (Unicode.fallback_rule_based_recipe Unicode.ascii_methods
          (request_for ["tofu"; "kale"]))
     = "Simple Tofu Dish".
Proof.
  split.
  - rewrite (proj1 (fallback_classification Unicode.ascii_methods)
               loads_nothing construct (Raise APIError)
               (request_for ["egg"; "noodles"]) APIError eq_refl).
    unfold request_for.
    rewrite (proj1 (proj1 (proj2
               (fallback_classification Unicode.ascii_methods))
               "egg" ["noodles"] (Some []) None None)).
    + reflexivity.
    + exists "noodles". split; simpl; tauto.
  - unfold request_for.
    rewrite (proj1 (proj2 (proj1 (proj2
               (fallback_classification Unicode.ascii_methods))
               "tofu" ["kale"] (Some []) None None))).
    + reflexivity.
    + intros x [<-|[<-|[]]]; simpl; intuition discriminate.
    + exists "tofu". split; simpl; tauto.
Defined.

(** C1, amended.  For every request with a non-empty ingredient list
    the synthesizer returns a recipe.  When the generative attempt
    succeeds -- the reply parses and the model class accepts the value,
    converted or not -- its recipe is returned as it is, without a
    check of the invariants.  When the attempt fails -- the service
    raises, [json.loads] rejects the cleaned reply, or the model class
    rejects the value -- the result is the rule-based fallback, which
    has a non-empty title, at least one step, no empty step, a positive
    time, positive servings and a difficulty among easy, medium and
    hard. *)
Theorem synthesize_total_and_fallback_valid
    (lib : Unicode.strlib) (json_loads : string -> result json)
    (model_class : json -> result GeneratedRecipe)
    (response : result string) (request : GeneratedRecipeRequest) :
  ingredients request <> [] ->
  let attempt :=
    Unicode.generative_attempt lib json_loads model_class response in
  let result :=
    Unicode.generate_ai_recipe lib json_loads model_class response request in
  (forall r, attempt = Ok r -> result = r)
  /\ (forall e, attempt = Raise e ->
        result = Unicode.fallback_rule_based_recipe lib request
        /\ valid_recipe result = true)
  /\ ((exists r, attempt = Ok r /\ result = r)
      \/ (exists e, attempt = Raise e /\ valid_recipe result = true))
  /\ (forall e, response = Raise e -> valid_recipe result = true)
  /\ (forall content e,
        response = Ok content ->
        json_loads (Unicode.clean_response lib content) = Raise e ->
        valid_recipe result = true)
  /\ (forall content recipe_data e,
        response = Ok content ->
        json_loads (Unicode.clean_response lib content) = Ok recipe_data ->
        model_class recipe_data = Raise e ->
        valid_recipe result = true)
  /\ (forall content recipe_data r,
        response = Ok content ->
        json_loads (Unicode.clean_response lib content) = Ok recipe_data ->
        model_class recipe_data = Ok r ->
        result = r).
Proof.
  intros Hne attempt result.
  assert (S : forall r, attempt = Ok r -> result = r).
  { intros r Hr. unfold result, Unicode.generate_ai_recipe.
    fold attempt. now rewrite Hr. }
  assert (F : forall e, attempt = Raise e ->
                result = Unicode.fallback_rule_based_recipe lib request
                /\ valid_recipe result = true).
  { intros e He. unfold result.
    rewrite (generate_falls_back lib json_loads model_class _ _ _ He).
    split; [reflexivity | now apply fallback_is_valid]. }
  split; [exact S|]. split; [exact F|]. split; [|split; [|split; [|split]]].
  - destruct attempt as [r|e] eqn:A; [left|right].
    + exists r. split; [reflexivity|now apply S].
    + exists e. split; [reflexivity|]. now apply (F e).
  - intros e E. apply (F e). unfold attempt. now rewrite E.
  - intros content e E He. apply (F e).
    unfold attempt, Unicode.generative_attempt. rewrite E. simpl.
    now rewrite He.
  - intros content j e E Hj He. apply (F e).
    unfold attempt, Unicode.generative_attempt. rewrite E. simpl.
    rewrite Hj. simpl. exact He.
  - intros content j r E Hj Hr. apply S.
    unfold attempt, Unicode.generative_attempt. rewrite E. simpl.
    rewrite Hj. simpl. exact Hr.
Qed.

(** The amended C1 at a request for tomato: with a service that raises
    the result is valid; with the reply of empty values it is that
    reply. *)
Lemma synthesize_total_and_fallback_valid_witness :
  valid_recipe
    (Unicode.generate_ai_recipe Unicode.ascii_methods loads_nothing construct
       (Raise APIError) (request_for ["tomato"])) = true
  /\ Unicode.generate_ai_recipe Unicode.ascii_methods loads_degenerate
       construct (Ok degenerate_reply) (request_for ["tomato"])
     = mkRecipe EmptyString [] 0 "expert" None 0.
Proof.
  assert (N : ingredients (request_for ["tomato"]) <> [])
    by (simpl; discriminate).
  split.
  - exact (proj1 (proj2 (proj2 (proj2
      (synthesize_total_and_fallback_valid Unicode.ascii_methods
         loads_nothing construct (Raise APIError)
         (request_for ["tomato"]) N)))) APIError eq_refl).
  - apply (proj1
      (synthesize_total_and_fallback_valid Unicode.ascii_methods
         loads_degenerate construct (Ok degenerate_reply)
         (request_for ["tomato"]) N)).
    vm_compute. reflexivity.
Defined.

(* ================================================================= *)
(** ** [validate_ingredients] over an arbitrary [strip] and [lower] *)

Section ValidateOverMethods.

Variable lib : Unicode.strlib.

Lemma validate_step_keeps (l acc : list string) :
  fold_left (Unicode.validate_step lib) l acc
  = acc ++ flat_map (Unicode.keep lib) l.
Proof.
  revert acc. induction l as [|i l IH]; simpl; intros acc.
  - now rewrite app_nil_r.
  - rewrite IH. unfold Unicode.validate_step, Unicode.keep, Unicode.kept.
    destruct (truthy (Unicode.str_lower lib (Unicode.str_strip lib i))
              && (2 <? Unicode.len
                         (Unicode.str_lower lib (Unicode.str_strip lib i)))%nat
              && negb (contains non_food_items
                         (Unicode.str_lower lib (Unicode.str_strip lib i))));
      simpl; [now rewrite <- app_assoc|reflexivity].
Qed.

Lemma validate_keeps (l : list string) :
  Unicode.validate_ingredients lib l = flat_map (Unicode.keep lib) l.
Proof. unfold Unicode.validate_ingredients. now rewrite validate_step_keeps. Qed.

Lemma validate_member (l : list string) (c : string) :
  In c (Unicode.validate_ingredients lib l)
  <-> exists i,
        In i l /\ c = Unicode.str_lower lib (Unicode.str_strip lib i)
        /\ Unicode.kept c = true.
Proof.
  rewrite validate_keeps, in_flat_map. unfold Unicode.keep. split.
  - intros (i & Hi & H).
    destruct (Unicode.kept (Unicode.str_lower lib (Unicode.str_strip lib i)))
      eqn:K; [|destruct H].
    destruct H as [<-|[]]. eauto.
  - intros (i & Hi & -> & K). exists i. rewrite K. simpl. auto.
Qed.

End ValidateOverMethods.

(** X10.  Every name that [validate_ingredients] returns is the
    trimmed, lowercased form of an input, has at least three
    characters, and is none of the seven non-food words; the result is
    never longer than the input.  Where [lower] is idempotent and
    [strip] leaves a trimmed, lowercased text as it is, every returned
    name is itself trimmed and in lower case. *)
Theorem validate_ingredients_output (lib : Unicode.strlib)
    (l : list string) :
  Forall (fun c =>
            (exists i,
                In i l
                /\ c = Unicode.str_lower lib (Unicode.str_strip lib i))
            /\ c <> EmptyString
            /\ (3 <= Unicode.len c)%nat
            /\ ~ In c ["plate"; "bowl"; "table"; "hand"; "person";
                       "kitchen"; "utensil"])
         (Unicode.validate_ingredients lib l)
  /\ (List.length (Unicode.validate_ingredients lib l) <= List.length l)%nat
  /\ ((forall s, Unicode.str_lower lib (Unicode.str_lower lib s)
                 = Unicode.str_lower lib s) ->
      (forall s, Unicode.str_strip lib
                   (Unicode.str_lower lib (Unicode.str_strip lib s))
                 = Unicode.str_lower lib (Unicode.str_strip lib s)) ->
      Forall (fun c => Unicode.str_strip lib c = c
                       /\ Unicode.str_lower lib c = c)
             (Unicode.validate_ingredients lib l)).
Proof.
  split; [|split].
  - rewrite Forall_forall. intros c H. apply validate_member in H.
    destruct H as (i & Hi & -> & K). unfold Unicode.kept in K.
    rewrite !andb_true_iff, negb_true_iff in K.
    destruct K as [[T L] N]. apply Nat.ltb_lt in L.
    apply truthy_nonempty in T.
    split; [eauto|]. split; [exact T|]. split; [lia|].
    intros H. apply contains_In in H.
    unfold non_food_items in N. congruence.
  - rewrite validate_keeps.
    induction l as [|i l IH]; simpl; [lia|].
    rewrite length_app. unfold Unicode.keep at 1.
    destruct (Unicode.kept _); simpl; lia.
  - intros HL HS. rewrite Forall_forall. intros c H.
    apply validate_member in H. destruct H as (i & _ & -> & _).
    split; [apply HS|apply HL].
Qed.

(** X10 with the ASCII methods: a name of two letters, one of them
    beyond ASCII, is dropped; "Tomato" between spaces is kept as
    "tomato". *)
Lemma validate_ingredients_output_witness :
  Unicode.validate_ingredients Unicode.ascii_methods
    ["éa"; " Tomato "; "bowl"; "abc"]
  = ["tomato"; "abc"]
  /\ Forall (fun c => strip c = c /\ lower c = c)
       (Unicode.validate_ingredients Unicode.ascii_methods
          ["éa"; " Tomato "; "bowl"; "abc"]).
Proof.
  split; [vm_compute; reflexivity|].
  exact (proj2 (proj2
    (validate_ingredients_output Unicode.ascii_methods
       ["éa"; " Tomato "; "bowl"; "abc"]))
    lower_idempotent clean_strip).
Defined.

